(** * AuthService: the transactional registration and verification core

    A shallow embedding of [auth_service/db/service.py] (class [DBService])
    and of the [get_user] endpoint of [auth_service/api/endpoints/user.py].

    The persistent store is a record of three tables.  A coroutine that
    talks to the store is a state transformer that either returns a value
    or raises an exception.  The retrying executor additionally produces
    the trace of what it did with the connection and with the event loop
    (transactions opened and closed, sleeps), so that the number of
    executions of a unit of work and the sleeps between them can be
    counted.

    Statements are modelled on a store that one client accesses at a
    time: a statement of the workflows does not itself signal a
    serialization conflict.  Conflicts enter through the unit of work
    handed to the executor, which is arbitrary; a conflict that the store
    reports when the transaction block is left is, for the executor, a
    unit of work that raises [SerializationError] as its last step. *)

From Stdlib Require Import ZArith NArith List Ascii String Bool Lia.
From Stdlib Require Import Floats.PrimFloat.
Import ListNotations.
Local Open Scope Z_scope.

Set Implicit Arguments.

(** ** Values *)

(** [uuid.UUID]: a 128-bit number. *)
Definition UUID := N.

(** [datetime.datetime], timezone-naive UTC, counted in microseconds. *)
Definition timestamp := Z.

(** Modelled from the spec: [auth_service/models/user.py] is not among the
    sources.  The code uses the two members [UserRole.user] and
    [UserRole.admin]; the spec names them "standard user" and "admin". *)
Module UserRole.
Inductive t := user | admin.

Definition eqb (a b : t) : bool :=
  match a, b with
  | user, user | admin, admin => true
  | _, _ => false
  end.
End UserRole.

(** Exceptions.  The first four are [auth_service.db.exceptions], the next
    two [auth_service.api.exceptions], then those of asyncpg
    ([SerializationError], [InterfaceError], [DataError],
    [CharacterNotInRepertoireError]) and of the Python runtime. *)
Inductive exn :=
| UserAlreadyExists
| TooManyNewcomersWithSameEmail
| TokenNotFound
| UserNotExists
| NotFoundException
| ForbiddenException
| SerializationError
| InterfaceError
| DataError
| CharacterNotInRepertoireError
| AttributeError
| UnboundLocalError.

(** The errors the spec calls domain errors. *)
Definition is_domain_error (e : exn) : bool :=
  match e with
  | UserAlreadyExists | TooManyNewcomersWithSameEmail
  | TokenNotFound | UserNotExists => true
  | _ => false
  end.

Inductive outcome (T : Type) :=
| Returned (v : T)
| Raised (e : exn).
Arguments Raised {T} e.

(** ** Models ([auth_service/models]) *)

(** [models/token.py], [RegistrationToken(Token)]; also the row of the
    [registration_tokens] table, whose columns are the same four. *)
Record RegistrationToken := {
  token : string;
  created_at : timestamp;
  expired_at : timestamp;
  user_id : UUID
}.

(** Modelled from the spec: [NewcomerRegistered], the input of a
    registration (name, email, password credential); declared in
    [models/user.py], which is not among the sources. *)
Record NewcomerRegistered := {
  nr_name : string;
  nr_email : string;
  nr_password : string
}.

(** Modelled from the spec: [Newcomer], the public fields of a pending
    signup; they are the columns of the [RETURNING] clause of
    [_insert_newcomer]. *)
Record Newcomer := {
  n_user_id : UUID;
  n_name : string;
  n_email : string;
  n_created_at : timestamp
}.

(** Modelled from the spec: [User], the public fields of a verified
    account; they are the columns of the [RETURNING] clause of
    [_verify_newcomer]. *)
Record User := {
  u_user_id : UUID;
  u_name : string;
  u_email : string;
  u_created_at : timestamp;
  u_verified_at : timestamp;
  u_role : UserRole.t
}.

(** ** The store *)

(** Row of [newcomers], columns as listed by [_insert_newcomer]. *)
Record NewcomerRow := {
  nc_user_id : UUID;
  nc_name : string;
  nc_email : string;
  nc_password : string;
  nc_created_at : timestamp
}.

(** Row of [users], columns as listed by the insert of [_verify_newcomer]. *)
Record UserRow := {
  ur_user_id : UUID;
  ur_name : string;
  ur_email : string;
  ur_password : string;
  ur_created_at : timestamp;
  ur_verified_at : timestamp;
  ur_role : UserRole.t
}.

(** The three tables.  The constraints of the schema are declared in
    [auth_service/db/models.py], which is not among the sources: an
    insert appends its row. *)
Record database := {
  users : list UserRow;
  newcomers : list NewcomerRow;
  registration_tokens : list RegistrationToken
}.

(** What a coroutine can read and change: the store, and how many times
    the clock and the identifier generator have been consulted. *)
Record state := {
  db : database;
  ticks : nat;
  uuids_drawn : nat
}.

Definition with_db (d : database) (s : state) : state :=
  {| db := d; ticks := ticks s; uuids_drawn := uuids_drawn s |}.

(** ** Coroutines: state and exceptions *)

Definition action (T : Type) := state -> state * outcome T.

Definition ret {T} (v : T) : action T := fun s => (s, Returned v).

Definition raise {T} (e : exn) : action T := fun s => (s, Raised e).

Definition bind {T U} (c : action T) (k : T -> action U) : action U :=
  fun s =>
    match c s with
    | (s', Returned v) => k v s'
    | (s', Raised e) => (s', Raised e)
    end.

Declare Scope action_scope.
Delimit Scope action_scope with action.
Notation "x <- c ;; k" := (bind c (fun x => k))
  (at level 100, c at next level, right associativity) : action_scope.
Local Open Scope action_scope.

(** ** Statements and their arguments *)

(** A Python value handed to asyncpg as a query argument. *)
Inductive sql_value :=
| SqlNull
| SqlUuid (u : UUID)
| SqlText (s : string)
| SqlTimestamp (t : timestamp)
| SqlRole (r : UserRole.t).

(** A statement is described by the placeholders it mentions, in the
    order in which they occur: [$1, $2, $5, $5] is [[1; 2; 5; 5]].  The
    statement has as many parameters as its largest placeholder. *)
Definition n_parameters (placeholders : list nat) : nat :=
  list_max placeholders.

(** asyncpg binds the arguments of [fetchrow], [fetchval] and [execute]
    to the parameters by position, and refuses a call whose number of
    arguments is not the number of parameters of the statement. *)
Definition bind_arguments (placeholders : list nat) (args : list sql_value)
  : action (list sql_value) :=
  if Nat.eqb (List.length args) (n_parameters placeholders)
  then ret (map (fun k => nth (k - 1)%nat args SqlNull) placeholders)
  else raise InterfaceError.

(** Whether a text contains the character NUL.  PostgreSQL stores no
    such text: a statement that is asked to store one is refused with
    [CharacterNotInRepertoireError]. *)
Fixpoint contains_nul (s : string) : bool :=
  match s with
  | EmptyString => false
  | String c rest => Ascii.eqb c Ascii.zero || contains_nul rest
  end.

Section Service.

(** The clock collaborator ([auth_service.utils.utc_now]) and the
    identifier generator ([uuid.uuid4]): the value of the k-th
    consultation. *)
Variable clock : nat -> timestamp.
Variable uuid_source : nat -> UUID.

Definition utc_now : action timestamp :=
  fun s =>
    ({| db := db s; ticks := S (ticks s); uuids_drawn := uuids_drawn s |},
     Returned (clock (ticks s))).

Definition uuid4 : action UUID :=
  fun s =>
    ({| db := db s; ticks := ticks s; uuids_drawn := S (uuids_drawn s) |},
     Returned (uuid_source (uuids_drawn s))).

(** [class DBService(BaseModel)]; the pool is the store of the state. *)
Record DBService := {
  max_newcomers_with_same_email : Z;
  n_transaction_retries : Z;
  transaction_retry_interval_first : float;
  transaction_retry_interval_factor : float
}.

Variable self : DBService.

(** *** Entity repositories *)

(** [SELECT count( * ) FROM users WHERE email = $1::VARCHAR] *)
Definition _count_users_by_email (email : string) : action Z :=
  bound <- bind_arguments [1%nat] [SqlText email] ;;
  match bound with
  | [SqlText e] =>
      fun s =>
        (s, Returned (Z.of_nat (List.length
               (filter (fun u => String.eqb (ur_email u) e) (users (db s))))))
  | _ => raise DataError
  end.

(** [SELECT count( * ) FROM newcomers WHERE email = $1::VARCHAR] *)
Definition _count_newcomers_by_email (email : string) : action Z :=
  bound <- bind_arguments [1%nat] [SqlText email] ;;
  match bound with
  | [SqlText e] =>
      fun s =>
        (s, Returned (Z.of_nat (List.length
               (filter (fun n => String.eqb (nc_email n) e) (newcomers (db s))))))
  | _ => raise DataError
  end.

Definition add_newcomer (r : NewcomerRow) (d : database) : database :=
  {| users := users d;
     newcomers := newcomers d ++ [r];
     registration_tokens := registration_tokens d |}.

Definition add_registration_token (r : RegistrationToken) (d : database)
  : database :=
  {| users := users d;
     newcomers := newcomers d;
     registration_tokens := registration_tokens d ++ [r] |}.

Definition add_user (r : UserRow) (d : database) : database :=
  {| users := users d ++ [r];
     newcomers := newcomers d;
     registration_tokens := registration_tokens d |}.

(** [INSERT INTO newcomers (user_id, name, email, password, created_at)
     VALUES ($1, $2, $3, $4, $5) RETURNING user_id, name, email, created_at]
    with the arguments [uuid4(), newcomer.name, newcomer.email,
    newcomer.password, utc_now()].  The arguments are evaluated, then the
    statement is sent; the store refuses it when one of the three texts
    contains the character NUL, and writes no row. *)
Definition _insert_newcomer (newcomer : NewcomerRegistered) : action Newcomer :=
  uid <- uuid4 ;;
  now <- utc_now ;;
  bound <- bind_arguments [1; 2; 3; 4; 5]%nat
             [SqlUuid uid; SqlText (nr_name newcomer);
              SqlText (nr_email newcomer); SqlText (nr_password newcomer);
              SqlTimestamp now] ;;
  match bound with
  | [SqlUuid u; SqlText n; SqlText e; SqlText p; SqlTimestamp c] =>
      if contains_nul n || contains_nul e || contains_nul p
      then raise CharacterNotInRepertoireError
      else
        fun s =>
          (with_db (add_newcomer
                      {| nc_user_id := u; nc_name := n; nc_email := e;
                         nc_password := p; nc_created_at := c |} (db s)) s,
           Returned {| n_user_id := u; n_name := n; n_email := e;
                       n_created_at := c |})
  | _ => raise DataError
  end.

(** [DBService._create_newcomer], the unit of work of a registration. *)
Definition _create_newcomer (newcomer : NewcomerRegistered) : action Newcomer :=
  let email := nr_email newcomer in
  n_users <- _count_users_by_email email ;;
  if n_users >? 0 then raise UserAlreadyExists
  else
    n_newcomers <- _count_newcomers_by_email email ;;
    if n_newcomers >=? max_newcomers_with_same_email self
    then raise TooManyNewcomersWithSameEmail
    else
      created <- _insert_newcomer newcomer ;;
      ret created.

(** [DBService.save_registration_token]: one [INSERT INTO
    registration_tokens (token, user_id, created_at, expired_at) VALUES
    ($1, $2, $3, $4)] sent with [self.pool.execute], that is on a
    connection of its own and outside any transaction block. *)
Definition save_registration_token (tok : RegistrationToken) : action unit :=
  bound <- bind_arguments [1; 2; 3; 4]%nat
             [SqlText (token tok); SqlUuid (user_id tok);
              SqlTimestamp (created_at tok); SqlTimestamp (expired_at tok)] ;;
  match bound with
  | [SqlText t; SqlUuid u; SqlTimestamp c; SqlTimestamp e] =>
      fun s =>
        (with_db (add_registration_token
                    {| token := t; created_at := c; expired_at := e;
                       user_id := u |} (db s)) s,
         Returned tt)
  | _ => raise DataError
  end.

(** The rows of [newcomers JOIN registration_tokens rt ON
    newcomers.user_id = rt.user_id]. *)
Definition newcomers_join_tokens (d : database)
  : list (NewcomerRow * RegistrationToken) :=
  flat_map
    (fun n =>
       map (fun rt => (n, rt))
           (filter (fun rt => N.eqb (nc_user_id n) (user_id rt))
                   (registration_tokens d)))
    (newcomers d).

(** [DBService._get_newcomer_by_token]: the first row of the join
    [WHERE token = $1::VARCHAR and expired_at > $2::TIMESTAMP], with the
    arguments [token, utc_now()]; [None] when there is none. *)
Definition _get_newcomer_by_token (tok : string)
  : action (option (NewcomerRow * RegistrationToken)) :=
  now <- utc_now ;;
  bound <- bind_arguments [1; 2]%nat [SqlText tok; SqlTimestamp now] ;;
  match bound with
  | [SqlText t; SqlTimestamp at_] =>
      fun s =>
        (s, Returned (hd_error
               (filter (fun row => String.eqb (token (snd row)) t
                                   && (expired_at (snd row) >? at_))
                       (newcomers_join_tokens (db s)))))
  | _ => raise DataError
  end.

(** The placeholders of the [VALUES] list of the insert into [users]:
    [$1::UUID, $2::VARCHAR, $3::VARCHAR, $4::VARCHAR, $5::TIMESTAMP,
     $5::TIMESTAMP, $5::VARCHAR]. *)
Definition insert_user_placeholders : list nat := [1; 2; 3; 4; 5; 5; 5]%nat.

(** [record.<name>] on the [asyncpg.Record] that [fetchrow] returns.  The
    columns of a Record are read by index or by key ([record[0]],
    [record["email"]]); they are not attributes of it.  The names that
    the code asks for are names of columns: the access raises
    [AttributeError]. *)
Definition Record_getattr (record : NewcomerRow * RegistrationToken)
    (name : string) : action sql_value :=
  raise AttributeError.

(** [DBService._verify_newcomer], the unit of work of a verification.
    The row found is read by attribute: [newcomer.email] for the
    recheck, then [newcomer.user_id], [newcomer.name], [newcomer.email],
    [newcomer.password] and [newcomer.created_at], in this order, as the
    first five arguments of the insert, before [utc_now()]. *)
Definition _verify_newcomer (tok : string) : action User :=
  newcomer <- _get_newcomer_by_token tok ;;
  match newcomer with
  | None => raise TokenNotFound
  | Some record =>
      email <- Record_getattr record "email" ;;
      n_users <- match email with
                 | SqlText e => _count_users_by_email e
                 | _ => raise DataError
                 end ;;
      if n_users >? 0 then raise UserAlreadyExists
      else
        a1 <- Record_getattr record "user_id" ;;
        a2 <- Record_getattr record "name" ;;
        a3 <- Record_getattr record "email" ;;
        a4 <- Record_getattr record "password" ;;
        a5 <- Record_getattr record "created_at" ;;
        now <- utc_now ;;
        bound <- bind_arguments insert_user_placeholders
                   [a1; a2; a3; a4; a5; SqlTimestamp now;
                    SqlRole UserRole.user] ;;
        match bound with
        | [SqlUuid u; SqlText n; SqlText e; SqlText p;
           SqlTimestamp c; SqlTimestamp v; SqlRole r] =>
            fun s =>
              (with_db (add_user
                          {| ur_user_id := u; ur_name := n; ur_email := e;
                             ur_password := p; ur_created_at := c;
                             ur_verified_at := v; ur_role := r |} (db s)) s,
               Returned {| u_user_id := u; u_name := n; u_email := e;
                           u_created_at := c; u_verified_at := v;
                           u_role := r |})
        | _ => raise DataError
        end
  end.

(** *** Retrying transaction executor *)

(** What the executor does with the pool, the connection and the event
    loop. *)
Inductive event :=
| Acquire                   (* async with self.pool.acquire() as conn *)
| Begin                     (* async with conn.transaction(isolation="serializable") *)
| Call                      (* await func(conn) *)
| Commit                    (* the transaction block is left normally *)
| Rollback                  (* the transaction block is left by an exception *)
| Sleep (interval : float)  (* await asyncio.sleep(interval) *)
| Release.                  (* the connection goes back to the pool *)

(** Leaving a transaction block by an exception undoes its writes; the
    clock and the identifier generator are not rewound. *)
Definition rollback (before after : state) : state :=
  with_db (db before) after.

(** [async with conn.transaction(isolation="serializable"):
         result = await func(conn)] *)
Definition transaction {T} (func : action T) (s : state)
  : state * outcome T * list event :=
  match func s with
  | (s', Returned v) => (s', Returned v, [Begin; Call; Commit])
  | (s', Raised e) => (rollback s s', Raised e, [Begin; Call; Rollback])
  end.

(** [range(n)] *)
Definition range (n : Z) : list Z := map Z.of_nat (seq 0 (Z.to_nat n)).

(** The [for attempt in range(self.n_transaction_retries)] loop, over the
    attempts that are left.  When the loop runs out of attempts without a
    [break], [return result] reads a local variable that no attempt has
    assigned. *)
Fixpoint retry_loop {T} (func : action T) (attempts : list Z)
    (interval : float) (s : state) : state * outcome T * list event :=
  match attempts with
  | [] => (s, Raised UnboundLocalError, [])
  | attempt :: rest =>
      match transaction func s with
      | (s', Returned result, tr) => (s', Returned result, tr)
      | (s', Raised SerializationError, tr) =>
          if attempt =? n_transaction_retries self - 1
          then (s', Raised SerializationError, tr)
          else
            let '(s'', r, tr') :=
              retry_loop func rest
                (interval * transaction_retry_interval_factor self)%float s' in
            (s'', r, tr ++ Sleep interval :: tr')
      | (s', Raised e, tr) => (s', Raised e, tr)
      end
  end.

(** [DBService.execute_serializable_transaction] *)
Definition execute_serializable_transaction {T} (func : action T) (s : state)
  : state * outcome T * list event :=
  let '(s', r, tr) :=
    retry_loop func (range (n_transaction_retries self))
      (transaction_retry_interval_first self) s in
  (s', r, Acquire :: tr ++ [Release]).

(** [DBService.create_newcomer] *)
Definition create_newcomer (newcomer : NewcomerRegistered) (s : state)
  : state * outcome Newcomer * list event :=
  execute_serializable_transaction (_create_newcomer newcomer) s.

(** [DBService.verify_newcomer] *)
Definition verify_newcomer (tok : string) (s : state)
  : state * outcome User * list event :=
  execute_serializable_transaction (_verify_newcomer tok) s.

End Service.

(** ** The [get_user] endpoint ([api/endpoints/user.py]) *)

Section Endpoint.

(** [DBService.get_user], called by the endpoint, is not defined in the
    [service.py] of the sources: it is a parameter of the endpoint. *)
Variable db_get_user : UUID -> action User.

(** [get_user(request, user_id, user = Depends(get_request_user))]: the
    caller [user] has been resolved by the authentication dependency. *)
Definition get_user (user_id : UUID) (user : User) : action User :=
  if negb (UserRole.eqb (u_role user) UserRole.admin)
  then raise NotFoundException
  else
    fun s =>
      match db_get_user user_id s with
      | (s', Raised UserNotExists) => (s', Raised NotFoundException)
      | (s', r) => (s', r)
      end.

End Endpoint.

(** ** Vocabulary of the statements *)

(** Number of executions of the unit of work recorded in a trace. *)
Definition executions (tr : list event) : nat :=
  List.length (filter (fun e => match e with Call => true | _ => false end) tr).

(** The sleeps recorded in a trace, in order. *)
Definition sleeps (tr : list event) : list float :=
  flat_map (fun e => match e with Sleep i => [i] | _ => [] end) tr.

(** Number of transactions opened in a trace. *)
Definition transactions_opened (tr : list event) : nat :=
  List.length (filter (fun e => match e with Begin => true | _ => false end) tr).

(** The interval after [k] multiplications by the factor, multiplied in
    the order of the loop. *)
Fixpoint backoff (interval factor : float) (k : nat) : float :=
  match k with
  | O => interval
  | S k' => backoff (interval * factor)%float factor k'
  end.

(** The trace of [k] attempts that each fail and are each followed by a
    sleep. *)
Fixpoint conflict_trace (interval factor : float) (k : nat) : list event :=
  match k with
  | O => []
  | S k' =>
      [Begin; Call; Rollback; Sleep interval]
        ++ conflict_trace (interval * factor)%float factor k'
  end.

(** The state in which attempt number [k] starts, when the attempts
    before it have run one after the other. *)
Fixpoint attempt_state {T} (func : action T) (s : state) (k : nat) : state :=
  match k with
  | O => s
  | S k' => attempt_state func (fst (fst (transaction func s))) k'
  end.

(** The outcome of attempt number [k]. *)
Definition attempt_outcome {T} (func : action T) (s : state) (k : nat)
  : outcome T :=
  snd (fst (transaction func (attempt_state func s k))).

(** [SELECT count( * ) FROM users WHERE email = ...], as a number. *)
Definition verified_count (email : string) (d : database) : Z :=
  Z.of_nat (List.length
              (filter (fun u => String.eqb (ur_email u) email) (users d))).

(** [SELECT count( * ) FROM newcomers WHERE email = ...], as a number. *)
Definition pending_count (email : string) (d : database) : Z :=
  Z.of_nat (List.length
              (filter (fun n => String.eqb (nc_email n) email) (newcomers d))).

(** Whether a pending signup, respectively a verification token, with
    this identifier is stored. *)
Definition has_newcomer (d : database) (uid : UUID) : bool :=
  existsb (fun n => N.eqb (nc_user_id n) uid) (newcomers d).

Definition has_registration_token (d : database) (uid : UUID) : bool :=
  existsb (fun rt => N.eqb (user_id rt) uid) (registration_tokens d).

(** The state after one consultation of the clock. *)
Definition tick (s : state) : state :=
  {| db := db s; ticks := S (ticks s); uuids_drawn := uuids_drawn s |}.

(** The row that [_insert_newcomer] writes in state [s], and the state
    it leaves. *)
Definition new_row (clock : nat -> timestamp) (uuid_source : nat -> UUID)
    (newcomer : NewcomerRegistered) (s : state) : NewcomerRow :=
  {| nc_user_id := uuid_source (uuids_drawn s);
     nc_name := nr_name newcomer;
     nc_email := nr_email newcomer;
     nc_password := nr_password newcomer;
     nc_created_at := clock (ticks s) |}.

Definition public_fields (r : NewcomerRow) : Newcomer :=
  {| n_user_id := nc_user_id r; n_name := nc_name r; n_email := nc_email r;
     n_created_at := nc_created_at r |}.

Definition after_insert (clock : nat -> timestamp) (uuid_source : nat -> UUID)
    (newcomer : NewcomerRegistered) (s : state) : state :=
  {| db := add_newcomer (new_row clock uuid_source newcomer s) (db s);
     ticks := S (ticks s);
     uuids_drawn := S (uuids_drawn s) |}.

(** Registrations one after the other: the outcomes of [create_newcomer]
    on each input in turn. *)
Fixpoint register_all (clock : nat -> timestamp) (uuid_source : nat -> UUID)
    (self : DBService) (inputs : list NewcomerRegistered) (s : state)
  : state * list (outcome Newcomer) :=
  match inputs with
  | [] => (s, [])
  | x :: rest =>
      let '(s1, r, _) := create_newcomer clock uuid_source self x s in
      let '(s2, rs) := register_all clock uuid_source self rest s1 in
      (s2, r :: rs)
  end.

(** Every pending signup has a token and every token has a pending
    signup. *)
Definition signups_and_tokens_paired (d : database) : bool :=
  forallb (fun n => has_registration_token d (nc_user_id n)) (newcomers d)
  && forallb (fun rt => has_newcomer d (user_id rt)) (registration_tokens d).

(** The condition of the lookup of [_get_newcomer_by_token] on a row of
    the join: [token = $1 and expired_at > $2]. *)
Definition token_matches (tok : string) (now : timestamp)
    (row : NewcomerRow * RegistrationToken) : bool :=
  String.eqb (token (snd row)) tok && (expired_at (snd row) >? now).

(** ** Sample data *)

Definition sample_clock : nat -> timestamp := fun k => 1000 + Z.of_nat k.

Definition sample_uuids : nat -> UUID := fun k => N.of_nat (7 + k).

Definition sample_service : DBService :=
  {| max_newcomers_with_same_email := 3;
     n_transaction_retries := 3;
     transaction_retry_interval_first := 0.5%float;
     transaction_retry_interval_factor := 2%float |}.

Definition unusable_service : DBService :=
  {| max_newcomers_with_same_email := 3;
     n_transaction_retries := 0;
     transaction_retry_interval_first := 0.5%float;
     transaction_retry_interval_factor := 2%float |}.

Definition empty_state : state :=
  {| db := {| users := []; newcomers := []; registration_tokens := [] |};
     ticks := 0;
     uuids_drawn := 0 |}.

Definition ivan : NewcomerRegistered :=
  {| nr_name := "ivan"; nr_email := "i@v.an"; nr_password := "$hash$" |}.

Definition ivan_row : NewcomerRow :=
  {| nc_user_id := 7%N; nc_name := "ivan"; nc_email := "i@v.an";
     nc_password := "$hash$"; nc_created_at := 1000 |}.

Definition ivan_token : RegistrationToken :=
  {| token := "t0k3n"; created_at := 1000; expired_at := 5000;
     user_id := 7%N |}.

Definition ivan_verified : UserRow :=
  {| ur_user_id := 7%N; ur_name := "ivan"; ur_email := "i@v.an";
     ur_password := "$hash$"; ur_created_at := 900; ur_verified_at := 950;
     ur_role := UserRole.user |}.

(** A pending signup with a token that is valid until 5000; the clock
    reads 1000. *)
Definition pending_state : state :=
  {| db := {| users := []; newcomers := [ivan_row];
              registration_tokens := [ivan_token] |};
     ticks := 0;
     uuids_drawn := 1 |}.

(** The same, when the clock reads exactly 5000. *)
Definition expiry_instant_state : state :=
  {| db := db pending_state; ticks := 4000; uuids_drawn := 1 |}.

(** A store in which the email of [ivan] is verified. *)
Definition verified_state : state :=
  {| db := {| users := [ivan_verified]; newcomers := [ivan_row];
              registration_tokens := [ivan_token] |};
     ticks := 0;
     uuids_drawn := 1 |}.

(** A unit of work that writes a pending signup and is then refused by
    the store with a serialization conflict. *)
Definition conflicting_work : action Newcomer :=
  fun s =>
    (fst (_insert_newcomer sample_clock sample_uuids ivan s),
     Raised SerializationError).

(** A plain user and an administrator. *)
Definition plain_caller : User :=
  {| u_user_id := 7%N; u_name := "ivan"; u_email := "i@v.an";
     u_created_at := 900; u_verified_at := 950; u_role := UserRole.user |}.

(** ** The [get_me] endpoint and further vocabulary *)

(** [get_me(user = Depends(get_request_user))] of
    [api/endpoints/user.py]: the resolved caller is the answer. *)
Definition get_me (user : User) : action User := ret user.

(** Number of transactions committed, respectively rolled back, in a
    trace. *)
Definition commits (tr : list event) : nat :=
  List.length (filter (fun e => match e with Commit => true | _ => false end) tr).

Definition rollbacks (tr : list event) : nat :=
  List.length
    (filter (fun e => match e with Rollback => true | _ => false end) tr).

(** The values returned among a list of outcomes, in order. *)
Definition successes {T} (rs : list (outcome T)) : list T :=
  flat_map (fun r => match r with Returned v => [v] | Raised _ => [] end) rs.

(** A second registrant, with an email of her own, and an
    administrator. *)
Definition maria : NewcomerRegistered :=
  {| nr_name := "maria"; nr_email := "m@ri.a"; nr_password := "$hash2$" |}.

Definition admin_caller : User :=
  {| u_user_id := 1%N; u_name := "root"; u_email := "r@o.ot";
     u_created_at := 100; u_verified_at := 150; u_role := UserRole.admin |}.


(** What a run of the loop over the attempts [a, a+1, ..., n-1] looks
    like, whatever the unit of work does. *)
Definition loop_run_ok {T} (func : action T) (interval factor : float)
    (m : nat) (s s' : state) (r : outcome T) (tr : list event) : Prop :=
  (1 <= executions tr <= m)%nat /\
  S (List.length (sleeps tr)) = executions tr /\
  sleeps tr = map (backoff interval factor) (seq 0 (List.length (sleeps tr))) /\
  transactions_opened tr = executions tr /\
  (commits tr + rollbacks tr)%nat = executions tr /\
  commits tr = match r with Returned _ => 1%nat | Raised _ => 0%nat end /\
  (exists s0, db s0 = db s /\ snd (func s0) = r /\
              forall v, r = Returned v -> fst (func s0) = s') /\
  (forall e, r = Raised e -> db s' = db s).

(** ** Vocabulary of inputs, executions and traces *)

(** An input none of whose three texts contains the character NUL. *)
Definition storable (newcomer : NewcomerRegistered) : bool :=
  negb (contains_nul (nr_name newcomer)
        || contains_nul (nr_email newcomer)
        || contains_nul (nr_password newcomer)).

(** The state after the arguments of an insert into [newcomers] have
    been evaluated and the statement has been refused: an identifier has
    been drawn and the clock has been read, no row is written. *)
Definition after_refused_insert (s : state) : state :=
  {| db := db s; ticks := S (ticks s); uuids_drawn := S (uuids_drawn s) |}.

(** Whether an outcome is a serialization conflict. *)
Definition is_conflict {T} (r : outcome T) : bool :=
  match r with
  | Raised SerializationError => true
  | _ => false
  end.

(** The state in which the unit of work is executed for the [k]-th time
    (counting from 0) when each execution before raised: the state that
    the execution before it left, with the writes of that execution
    undone. *)
Fixpoint execution_start {T} (func : action T) (s : state) (k : nat) : state :=
  match k with
  | O => s
  | S k' => execution_start func (rollback s (fst (func s))) k'
  end.

(** The state that an execution of the unit of work leaves once its
    transaction is closed: its own when it returned, its own with the
    writes undone when it raised. *)
Definition closed_state {T} (func : action T) (s : state) : state :=
  match snd (func s) with
  | Returned _ => fst (func s)
  | Raised _ => rollback s (fst (func s))
  end.

(** The event that closes the transaction of an execution. *)
Definition closing {T} (r : outcome T) : event :=
  match r with
  | Returned _ => Commit
  | Raised _ => Rollback
  end.


(** [asyncio.sleep(interval)] returns, after the interval or at once when
    the interval is not positive, when the interval is a number and is
    not infinite. *)
Definition sleep_returns (interval : float) : bool :=
  negb (is_nan interval) && negb (is_infinity interval).

(** A registrant whose name contains the character NUL. *)
Definition nul_name : NewcomerRegistered :=
  {| nr_name := String "a"%char (String Ascii.zero "b");
     nr_email := "i@v.an"; nr_password := "$hash$" |}.

(** * Properties *)

(** ** The retrying transaction executor *)

Section ExecutorFacts.

Variable self : DBService.
Variable T : Type.
Variable func : action T.

Lemma transaction_returned s s' v :
  func s = (s', Returned v) ->
  transaction func s = (s', Returned v, [Begin; Call; Commit]).
Proof. intros H. unfold transaction. rewrite H. reflexivity. Qed.

Lemma transaction_raised s s' e :
  func s = (s', Raised e) ->
  transaction func s = (rollback s s', Raised e, [Begin; Call; Rollback]).
Proof. intros H. unfold transaction. rewrite H. reflexivity. Qed.

(** An attempt that raises leaves the store as it found it. *)
Lemma transaction_raised_inv s s1 e tr :
  transaction func s = (s1, Raised e, tr) ->
  tr = [Begin; Call; Rollback] /\ db s1 = db s.
Proof.
  unfold transaction. destruct (func s) as [s' [v | e']]; intros H.
  - discriminate.
  - injection H as <- _ <-. split; reflexivity.
Qed.

Lemma attempt_state_S s k :
  attempt_state func s (S k) =
  fst (fst (transaction func (attempt_state func s k))).
Proof.
  revert s. induction k as [| k IH]; intros s.
  - reflexivity.
  - change (attempt_state func s (S (S k)))
      with (attempt_state func (fst (fst (transaction func s))) (S k)).
    rewrite IH. reflexivity.
Qed.

(** As long as every attempt raises, the store stays as it was. *)
Lemma attempt_state_db s k :
  (forall j, (j < k)%nat -> exists e, attempt_outcome func s j = Raised e) ->
  db (attempt_state func s k) = db s.
Proof.
  induction k as [| k IH]; intros H.
  - reflexivity.
  - rewrite attempt_state_S.
    destruct (H k) as [e He]; [lia |].
    unfold attempt_outcome in He.
    destruct (transaction func (attempt_state func s k)) as [[s1 r] tr] eqn:E.
    simpl in He. subst r.
    apply transaction_raised_inv in E. destruct E as [_ E].
    simpl. rewrite E. apply IH. intros j Hj. apply H. lia.
Qed.

Let n := n_transaction_retries self.
Let first := transaction_retry_interval_first self.
Let factor := transaction_retry_interval_factor self.

(** One turn of the loop on an attempt that fails with a serialization
    conflict and is not the last one. *)
Lemma retry_loop_conflict attempt rest interval s s' tr :
  transaction func s = (s', Raised SerializationError, tr) ->
  attempt <> n - 1 ->
  retry_loop self func (attempt :: rest) interval s =
  let '(s'', r, tr') :=
    retry_loop self func rest (interval * factor)%float s' in
  (s'', r, tr ++ Sleep interval :: tr').
Proof.
  intros H Hne. simpl. rewrite H.
  destruct (Z.eqb_spec attempt (n_transaction_retries self - 1)) as [E | _].
  - exfalso. apply Hne. exact E.
  - reflexivity.
Qed.

(** One turn of the loop on an attempt whose outcome ends the loop: the
    unit of work returned, raised something that is not a serialization
    conflict, or was the last attempt. *)
Lemma retry_loop_final attempt rest interval s s' r tr :
  transaction func s = (s', r, tr) ->
  r <> Raised SerializationError \/ attempt = n - 1 ->
  retry_loop self func (attempt :: rest) interval s = (s', r, tr).
Proof.
  intros H Hend. simpl. rewrite H.
  destruct r as [v | e]; [reflexivity |].
  destruct e; try reflexivity.
  destruct Hend as [Hne | ->]; [congruence |].
  fold n. rewrite Z.eqb_refl. reflexivity.
Qed.

(** [k] conflicting attempts in a row, none of them the last one. *)
Lemma retry_loop_conflicts k :
  forall a m interval s,
    (forall j, (j < k)%nat -> attempt_outcome func s j = Raised SerializationError) ->
    (k <= m)%nat ->
    Z.of_nat (a + k) <= n - 1 ->
    retry_loop self func (map Z.of_nat (seq a m)) interval s =
    let '(s', r, tr) :=
      retry_loop self func (map Z.of_nat (seq (a + k) (m - k)))
        (backoff interval factor k) (attempt_state func s k) in
    (s', r, conflict_trace interval factor k ++ tr).
Proof.
  induction k as [| k IH]; intros a m interval s Hc Hkm Ha.
  - simpl. rewrite Nat.add_0_r, Nat.sub_0_r.
    destruct (retry_loop _ _ _ _ _) as [[s' r] tr]. reflexivity.
  - destruct m as [| m]; [lia |].
    pose proof (Hc 0%nat ltac:(lia)) as H0. unfold attempt_outcome in H0.
    simpl in H0.
    destruct (transaction func s) as [[s1 r1] tr1] eqn:E. simpl in H0. subst r1.
    destruct (@transaction_raised_inv _ _ _ _ E) as [-> _].
    change (seq a (S m)) with (a :: seq (S a) m).
    rewrite map_cons.
    rewrite (@retry_loop_conflict _ _ _ _ _ _ E) by lia.
    rewrite (IH (S a) m (interval * factor)%float s1).
    + change (attempt_state func s (S k))
        with (attempt_state func (fst (fst (transaction func s))) k).
      rewrite E. simpl fst.
      replace (S a + k)%nat with (a + S k)%nat by lia.
      replace (S m - S k)%nat with (m - k)%nat by lia.
      destruct (retry_loop _ _ _ _ _) as [[s' r] tr]. reflexivity.
    + intros j Hj. specialize (Hc (S j) ltac:(lia)).
      unfold attempt_outcome in *. simpl in Hc. rewrite E in Hc. exact Hc.
    + lia.
    + lia.
Qed.

Lemma executions_app tr1 tr2 :
  executions (tr1 ++ tr2) = (executions tr1 + executions tr2)%nat.
Proof. unfold executions. rewrite filter_app, length_app. reflexivity. Qed.

Lemma sleeps_app tr1 tr2 : sleeps (tr1 ++ tr2) = sleeps tr1 ++ sleeps tr2.
Proof. unfold sleeps. apply flat_map_app. Qed.

Lemma executions_conflict_trace interval k :
  executions (conflict_trace interval factor k) = k.
Proof.
  revert interval. induction k as [| k IH]; intros interval.
  - reflexivity.
  - change (conflict_trace interval factor (S k))
      with ([Begin; Call; Rollback; Sleep interval]
              ++ conflict_trace (interval * factor)%float factor k).
    rewrite executions_app, IH. reflexivity.
Qed.

Lemma sleeps_conflict_trace interval k :
  sleeps (conflict_trace interval factor k) =
  map (backoff interval factor) (seq 0 k).
Proof.
  revert interval. induction k as [| k IH]; intros interval.
  - reflexivity.
  - change (conflict_trace interval factor (S k))
      with ([Begin; Call; Rollback; Sleep interval]
              ++ conflict_trace (interval * factor)%float factor k).
    rewrite sleeps_app, IH. simpl.
    f_equal. rewrite <- seq_shift, map_map. reflexivity.
Qed.

(** The executor after [k] conflicting attempts, when attempt [k] is
    still to come. *)
Lemma execute_after_conflicts k s :
  (forall j, (j < k)%nat -> attempt_outcome func s j = Raised SerializationError) ->
  Z.of_nat k <= n - 1 ->
  execute_serializable_transaction self func s =
  let '(s', r, tr) :=
    retry_loop self func (map Z.of_nat (seq k (Z.to_nat n - k)))
      (backoff first factor k) (attempt_state func s k) in
  (s', r, Acquire :: (conflict_trace first factor k ++ tr) ++ [Release]).
Proof.
  intros Hc Hk. unfold execute_serializable_transaction, range.
  fold n first.
  rewrite (@retry_loop_conflicts k 0%nat (Z.to_nat n) first s Hc) by lia.
  simpl Nat.add.
  destruct (retry_loop _ _ _ _ _) as [[s' r] tr]. reflexivity.
Qed.

(** The executor when attempt [k] ends the loop after [k] conflicts. *)
Lemma execute_ends_at k s s' r tr :
  (forall j, (j < k)%nat -> attempt_outcome func s j = Raised SerializationError) ->
  Z.of_nat k <= n - 1 ->
  transaction func (attempt_state func s k) = (s', r, tr) ->
  r <> Raised SerializationError \/ Z.of_nat k = n - 1 ->
  execute_serializable_transaction self func s =
  (s', r, Acquire :: (conflict_trace first factor k ++ tr) ++ [Release]).
Proof.
  intros Hc Hk Htx Hend.
  rewrite (@execute_after_conflicts k s Hc Hk).
  replace (Z.to_nat n - k)%nat with (S (Z.to_nat n - S k)) by lia.
  change (seq k (S (Z.to_nat n - S k)))
    with (k :: seq (S k) (Z.to_nat n - S k)).
  rewrite map_cons.
  rewrite (@retry_loop_final _ _ _ _ _ _ _ Htx Hend). reflexivity.
Qed.

End ExecutorFacts.

Lemma transaction_counts T (func : action T) s :
  executions (snd (transaction func s)) = 1%nat /\
  sleeps (snd (transaction func s)) = [] /\
  transactions_opened (snd (transaction func s)) = 1%nat.
Proof.
  unfold transaction. destruct (func s) as [s' [v | e]]; simpl; auto.
Qed.

Lemma retry_loop_runs_once self T (func : action T) attempt rest interval s :
  (1 <= executions (snd (retry_loop self func (attempt :: rest) interval s)))%nat.
Proof.
  unfold executions. simpl. unfold transaction.
  destruct (func s) as [s' [v | e]]; simpl; [lia |].
  destruct e; simpl; try lia.
  destruct (attempt =? n_transaction_retries self - 1); simpl; [lia |].
  destruct (retry_loop _ _ _ _ _) as [[s2 r] tr]. simpl. lia.
Qed.

Lemma execute_no_attempts self T (func : action T) s :
  n_transaction_retries self <= 0 ->
  execute_serializable_transaction self func s =
  (s, Raised UnboundLocalError, [Acquire; Release]).
Proof.
  intros Hn. unfold execute_serializable_transaction, range.
  replace (Z.to_nat (n_transaction_retries self)) with 0%nat by lia.
  reflexivity.
Qed.

(** What one attempt does, in terms of the unit of work. *)
Lemma transaction_of_func T (func : action T) s :
  transaction func s =
  (closed_state func s, snd (func s), [Begin; Call; closing (snd (func s))]).
Proof.
  unfold transaction, closed_state.
  destruct (func s) as [s1 [v | e]]; reflexivity.
Qed.

Lemma execution_start_S T (func : action T) s k :
  execution_start func s (S k) =
  rollback (execution_start func s k)
           (fst (func (execution_start func s k))).
Proof.
  revert s. induction k as [| k IH]; intros s.
  - reflexivity.
  - change (execution_start func s (S (S k)))
      with (execution_start func (rollback s (fst (func s))) (S k)).
    rewrite IH. reflexivity.
Qed.

(** As long as the executions raise, the attempts start where the
    executions of the unit of work, each with its writes undone, lead. *)
Lemma attempt_state_is_execution_start T (func : action T) s k :
  (forall j, (j < k)%nat ->
             exists e, snd (func (execution_start func s j)) = Raised e) ->
  attempt_state func s k = execution_start func s k.
Proof.
  induction k as [| k IH]; intros Hraise; [reflexivity |].
  rewrite attempt_state_S, execution_start_S, IH
    by (intros j Hj; apply Hraise; lia).
  rewrite transaction_of_func. simpl fst. unfold closed_state.
  destruct (Hraise k ltac:(lia)) as [e He]. rewrite He. reflexivity.
Qed.

Lemma execution_start_db T (func : action T) s k :
  db (execution_start func s k) = db s.
Proof.
  induction k as [| k IH]; [reflexivity |].
  rewrite execution_start_S. exact IH.
Qed.

(** The executor when the first [k] executions of the unit of work raise
    a serialization conflict and execution [k] ends the loop. *)
Lemma execute_in_terms_of_func self T (func : action T) s k :
  (forall j, (j < k)%nat ->
             snd (func (execution_start func s j)) = Raised SerializationError) ->
  Z.of_nat k <= n_transaction_retries self - 1 ->
  snd (func (execution_start func s k)) <> Raised SerializationError
  \/ Z.of_nat k = n_transaction_retries self - 1 ->
  execute_serializable_transaction self func s =
  (closed_state func (execution_start func s k),
   snd (func (execution_start func s k)),
   Acquire
     :: (conflict_trace (transaction_retry_interval_first self)
           (transaction_retry_interval_factor self) k
         ++ [Begin; Call; closing (snd (func (execution_start func s k)))])
     ++ [Release]).
Proof.
  intros Hc Hk Hend.
  assert (Hstart : forall j, (j <= k)%nat ->
             attempt_state func s j = execution_start func s j).
  { intros j Hj. apply attempt_state_is_execution_start.
    intros i Hi. exists SerializationError. apply Hc. lia. }
  apply (@execute_ends_at self T func k s).
  - intros j Hj. unfold attempt_outcome.
    rewrite (Hstart j) by lia. rewrite transaction_of_func. simpl.
    apply Hc. exact Hj.
  - exact Hk.
  - rewrite (Hstart k) by lia. apply transaction_of_func.
  - exact Hend.
Qed.

(** C3. Retry with backoff on serialization conflicts.  Let the first [k]
    executions of the unit of work by a call of
    [execute_serializable_transaction] raise a serialization conflict,
    none of them in the last attempt allowed, each execution starting
    from the state that the one before left, its writes undone; let the
    sleeps that follow them return; and let execution [k] end the loop
    (because it does not raise a conflict, or because it is made in the
    last attempt allowed).  Then each of the [k] executions is rolled
    back and followed by a sleep, the sleeps are the first interval
    multiplied 0, 1, ..., k-1 times by the factor, the unit of work is
    executed [k + 1] times, and the call ends as execution [k] does.  In
    particular, when execution [k] raises a conflict too, the unit of
    work has been executed [n_transaction_retries] times, with one sleep
    fewer, the [SerializationError] itself is raised to the caller, and
    the tables are as they were before the call. *)
Theorem serialization_conflicts_are_retried_with_backoff
    (self : DBService) (T : Type) (func : action T) (s : state) (k : nat) :
  let n := n_transaction_retries self in
  let first := transaction_retry_interval_first self in
  let factor := transaction_retry_interval_factor self in
  (forall j, (j < k)%nat ->
             snd (func (execution_start func s j)) = Raised SerializationError) ->
  (forall j, (j < k)%nat -> sleep_returns (backoff first factor j) = true) ->
  Z.of_nat k <= n - 1 ->
  snd (func (execution_start func s k)) <> Raised SerializationError
  \/ Z.of_nat k = n - 1 ->
  let '(s', r, tr) := execute_serializable_transaction self func s in
  r = snd (func (execution_start func s k)) /\
  s' = closed_state func (execution_start func s k) /\
  tr = Acquire
         :: (conflict_trace first factor k ++ [Begin; Call; closing r])
         ++ [Release] /\
  executions tr = S k /\
  sleeps tr = map (backoff first factor) (seq 0 k) /\
  (snd (func (execution_start func s k)) = Raised SerializationError ->
   r = Raised SerializationError /\
   executions tr = Z.to_nat n /\
   List.length (sleeps tr) = (Z.to_nat n - 1)%nat /\
   s' = execution_start func s (Z.to_nat n) /\
   db s' = db s).
Proof.
  cbv zeta. intros Hc _ Hk Hend.
  rewrite (@execute_in_terms_of_func self T func s k Hc Hk Hend).
  set (n := n_transaction_retries self) in *.
  set (first := transaction_retry_interval_first self) in *.
  set (factor := transaction_retry_interval_factor self) in *.
  set (last := execution_start func s k) in *.
  pose proof (@executions_conflict_trace self first k) as Hct.
  pose proof (@sleeps_conflict_trace self first k) as Hst.
  fold factor in Hct, Hst.
  assert (Hexec : executions
            (Acquire :: (conflict_trace first factor k
                           ++ [Begin; Call; closing (snd (func last))])
                     ++ [Release])
          = S k).
  { change (Acquire :: (conflict_trace first factor k
                          ++ [Begin; Call; closing (snd (func last))])
                    ++ [Release])
      with ([Acquire] ++ (conflict_trace first factor k
                            ++ [Begin; Call; closing (snd (func last))])
                      ++ [Release]).
    rewrite !executions_app, Hct.
    unfold executions. destruct (snd (func last)); simpl; lia. }
  assert (Hsleeps : sleeps
            (Acquire :: (conflict_trace first factor k
                           ++ [Begin; Call; closing (snd (func last))])
                     ++ [Release])
          = map (backoff first factor) (seq 0 k)).
  { change (Acquire :: (conflict_trace first factor k
                          ++ [Begin; Call; closing (snd (func last))])
                    ++ [Release])
      with ([Acquire] ++ (conflict_trace first factor k
                            ++ [Begin; Call; closing (snd (func last))])
                      ++ [Release]).
    rewrite !sleeps_app, Hst.
    unfold sleeps. destruct (snd (func last)); simpl;
      rewrite !app_nil_r; reflexivity. }
  split; [reflexivity |].
  split; [reflexivity |].
  split; [reflexivity |].
  split; [exact Hexec |].
  split; [exact Hsleeps |].
  intros Hconflict.
  assert (Hlast : Z.of_nat k = n - 1).
  { destruct Hend as [Hne | Hlast]; [contradiction | exact Hlast]. }
  split; [exact Hconflict |].
  split; [rewrite Hexec; lia |].
  split; [rewrite Hsleeps, length_map, length_seq; lia |].
  assert (Hclosed : closed_state func last = execution_start func s (S k)).
  { rewrite execution_start_S. unfold closed_state. fold last.
    rewrite Hconflict. reflexivity. }
  split.
  - rewrite Hclosed. f_equal. lia.
  - rewrite Hclosed. apply execution_start_db.
Qed.

(** C4. A unit of work that raises anything but a serialization conflict
    is executed once: its transaction is rolled back and the exception
    reaches the caller unchanged, without a sleep and without a second
    attempt. *)
Theorem domain_errors_propagate_without_retry
    (self : DBService) (T : Type) (func : action T) (s s' : state) (e : exn) :
  1 <= n_transaction_retries self ->
  func s = (s', Raised e) ->
  e <> SerializationError ->
  execute_serializable_transaction self func s =
    (rollback s s', Raised e, [Acquire; Begin; Call; Rollback; Release]) /\
  executions (snd (execute_serializable_transaction self func s)) = 1%nat /\
  sleeps (snd (execute_serializable_transaction self func s)) = [] /\
  db (fst (fst (execute_serializable_transaction self func s))) = db s.
Proof.
  intros Hn Hf He.
  assert (Hx : execute_serializable_transaction self func s =
               (rollback s s', Raised e, [Acquire; Begin; Call; Rollback; Release])).
  { rewrite (@execute_ends_at self T func 0%nat s (rollback s s') (Raised e)
               [Begin; Call; Rollback]).
    - reflexivity.
    - intros j Hj. lia.
    - simpl. lia.
    - simpl. apply transaction_raised. exact Hf.
    - left. congruence. }
  rewrite Hx. repeat split.
Qed.

(** C9. With [n_transaction_retries] zero or negative the loop body is
    never entered: no transaction is opened, the unit of work is not
    executed, the store is left as it was, and [return result] raises
    [UnboundLocalError], which is neither a domain error nor a
    serialization error.  With [n_transaction_retries] at least one, the
    unit of work is executed at least once. *)
Theorem executor_needs_at_least_one_attempt
    (self : DBService) (T : Type) (func : action T) (s : state) :
  (n_transaction_retries self <= 0 ->
   execute_serializable_transaction self func s =
     (s, Raised UnboundLocalError, [Acquire; Release]) /\
   executions (snd (execute_serializable_transaction self func s)) = 0%nat /\
   transactions_opened (snd (execute_serializable_transaction self func s)) = 0%nat /\
   is_domain_error UnboundLocalError = false /\
   UnboundLocalError <> SerializationError) /\
  (1 <= n_transaction_retries self ->
   (1 <= executions (snd (execute_serializable_transaction self func s)))%nat).
Proof.
  split.
  - intros Hn.
    rewrite (execute_no_attempts self func s Hn).
    repeat split. discriminate.
  - intros Hn. unfold execute_serializable_transaction, range.
    replace (Z.to_nat (n_transaction_retries self))
      with (S (Z.to_nat (n_transaction_retries self) - 1)) by lia.
    change (seq 0 (S (Z.to_nat (n_transaction_retries self) - 1)))
      with (0%nat :: seq 1 (Z.to_nat (n_transaction_retries self) - 1)).
    rewrite map_cons.
    pose proof (retry_loop_runs_once self func (Z.of_nat 0)
                  (map Z.of_nat (seq 1 (Z.to_nat (n_transaction_retries self) - 1)))
                  (transaction_retry_interval_first self) s) as H.
    destruct (retry_loop _ _ _ _ _) as [[s' r] tr]. simpl in H |- *.
    change (Acquire :: tr ++ [Release]) with ([Acquire] ++ tr ++ [Release]).
    rewrite !executions_app. lia.
Qed.

(** ** The registration workflow *)

Lemma rollback_same s : rollback s s = s.
Proof. destruct s. reflexivity. Qed.

Lemma count_users_eval email s :
  _count_users_by_email email s = (s, Returned (verified_count email (db s))).
Proof. reflexivity. Qed.

Lemma count_newcomers_eval email s :
  _count_newcomers_by_email email s = (s, Returned (pending_count email (db s))).
Proof. reflexivity. Qed.

Lemma insert_newcomer_eval clock uuid_source newcomer s :
  _insert_newcomer clock uuid_source newcomer s =
  if storable newcomer
  then (after_insert clock uuid_source newcomer s,
        Returned (public_fields (new_row clock uuid_source newcomer s)))
  else (after_refused_insert s, Raised CharacterNotInRepertoireError).
Proof.
  unfold _insert_newcomer, bind, storable. simpl.
  destruct (contains_nul (nr_name newcomer)
            || contains_nul (nr_email newcomer)
            || contains_nul (nr_password newcomer)); reflexivity.
Qed.

(** The four ways in which the unit of work of a registration ends. *)
Lemma create_newcomer_unit clock uuid_source self newcomer s :
  _create_newcomer clock uuid_source self newcomer s =
  if verified_count (nr_email newcomer) (db s) >? 0
  then (s, Raised UserAlreadyExists)
  else if pending_count (nr_email newcomer) (db s)
          >=? max_newcomers_with_same_email self
       then (s, Raised TooManyNewcomersWithSameEmail)
       else if storable newcomer
            then (after_insert clock uuid_source newcomer s,
                  Returned (public_fields
                              (new_row clock uuid_source newcomer s)))
            else (after_refused_insert s,
                  Raised CharacterNotInRepertoireError).
Proof.
  unfold _create_newcomer. unfold bind at 1. rewrite count_users_eval.
  destruct (verified_count (nr_email newcomer) (db s) >? 0); [reflexivity |].
  unfold bind at 1. rewrite count_newcomers_eval.
  destruct (pending_count (nr_email newcomer) (db s)
            >=? max_newcomers_with_same_email self); [reflexivity |].
  unfold bind at 1. rewrite insert_newcomer_eval.
  destruct (storable newcomer); reflexivity.
Qed.

Lemma verified_count_pos email d :
  (exists u, In u (users d) /\ ur_email u = email) ->
  verified_count email d > 0.
Proof.
  intros [u [Hin He]]. unfold verified_count.
  assert (Hf : In u (filter (fun u => String.eqb (ur_email u) email) (users d))).
  { apply filter_In. split; [exact Hin |]. apply String.eqb_eq. exact He. }
  destruct (filter _ (users d)); [contradiction | simpl; lia].
Qed.

(** The method [create_newcomer], case by case. *)
Lemma create_newcomer_cases clock uuid_source self newcomer s :
  let email := nr_email newcomer in
  (n_transaction_retries self <= 0 /\
   create_newcomer clock uuid_source self newcomer s =
     (s, Raised UnboundLocalError, [Acquire; Release])) \/
  (1 <= n_transaction_retries self /\
   verified_count email (db s) > 0 /\
   create_newcomer clock uuid_source self newcomer s =
     (s, Raised UserAlreadyExists,
      [Acquire; Begin; Call; Rollback; Release])) \/
  (1 <= n_transaction_retries self /\
   verified_count email (db s) <= 0 /\
   pending_count email (db s) >= max_newcomers_with_same_email self /\
   create_newcomer clock uuid_source self newcomer s =
     (s, Raised TooManyNewcomersWithSameEmail,
      [Acquire; Begin; Call; Rollback; Release])) \/
  (1 <= n_transaction_retries self /\
   verified_count email (db s) <= 0 /\
   pending_count email (db s) < max_newcomers_with_same_email self /\
   storable newcomer = true /\
   create_newcomer clock uuid_source self newcomer s =
     (after_insert clock uuid_source newcomer s,
      Returned (public_fields (new_row clock uuid_source newcomer s)),
      [Acquire; Begin; Call; Commit; Release])) \/
  (1 <= n_transaction_retries self /\
   verified_count email (db s) <= 0 /\
   pending_count email (db s) < max_newcomers_with_same_email self /\
   storable newcomer = false /\
   create_newcomer clock uuid_source self newcomer s =
     (after_refused_insert s, Raised CharacterNotInRepertoireError,
      [Acquire; Begin; Call; Rollback; Release])).
Proof.
  intros email.
  destruct (Z_le_gt_dec (n_transaction_retries self) 0) as [Hn | Hn].
  - left. split; [exact Hn |].
    apply execute_no_attempts. exact Hn.
  - right.
    pose proof (create_newcomer_unit clock uuid_source self newcomer s) as Hu.
    fold email in Hu.
    assert (Hraise : forall s1 e,
               _create_newcomer clock uuid_source self newcomer s
               = (s1, Raised e) ->
               e <> SerializationError ->
               create_newcomer clock uuid_source self newcomer s
               = (rollback s s1, Raised e,
                  [Acquire; Begin; Call; Rollback; Release])).
    { intros s1 e Hs1 He. unfold create_newcomer.
      rewrite (@execute_ends_at self _ _ 0%nat s (rollback s s1)
                 (Raised e) [Begin; Call; Rollback]).
      - reflexivity.
      - intros j Hj. lia.
      - simpl. lia.
      - simpl. apply transaction_raised. exact Hs1.
      - left. congruence. }
    destruct (Z.gtb_spec (verified_count email (db s)) 0) as [Hv | Hv].
    + left. split; [lia |]. split; [lia |].
      rewrite (Hraise s UserAlreadyExists Hu ltac:(discriminate)).
      rewrite rollback_same. reflexivity.
    + right.
      destruct (Z.geb_spec (pending_count email (db s))
                  (max_newcomers_with_same_email self)) as [Hp | Hp].
      * left. split; [lia |]. split; [lia |]. split; [lia |].
        rewrite (Hraise s TooManyNewcomersWithSameEmail Hu
                   ltac:(discriminate)).
        rewrite rollback_same. reflexivity.
      * right. destruct (storable newcomer) eqn:Hst.
        -- left. split; [lia |]. split; [lia |]. split; [lia |].
           split; [reflexivity |].
           unfold create_newcomer.
           rewrite (@execute_ends_at self _ _ 0%nat s
                      (after_insert clock uuid_source newcomer s)
                      (Returned (public_fields
                                   (new_row clock uuid_source newcomer s)))
                      [Begin; Call; Commit]).
           ++ reflexivity.
           ++ intros j Hj. lia.
           ++ simpl. lia.
           ++ simpl. apply transaction_returned. exact Hu.
           ++ left. discriminate.
        -- right. split; [lia |]. split; [lia |]. split; [lia |].
           split; [reflexivity |].
           rewrite (Hraise (after_refused_insert s)
                      CharacterNotInRepertoireError Hu ltac:(discriminate)).
           reflexivity.
Qed.

Lemma pending_count_after_insert clock uuid_source newcomer s :
  pending_count (nr_email newcomer)
    (db (after_insert clock uuid_source newcomer s)) =
  pending_count (nr_email newcomer) (db s) + 1.
Proof.
  unfold pending_count. simpl. rewrite filter_app, length_app. simpl.
  rewrite String.eqb_refl. simpl. lia.
Qed.

(** C5. When a row of [users] carries the email of the registration, the
    unit of work [_create_newcomer] raises [UserAlreadyExists] whatever
    the [newcomers] table holds, and leaves the state as it found it; so
    does the method [create_newcomer], after a single attempt, as soon as
    the executor is allowed one attempt. *)
Theorem registration_of_verified_email_fails
    (clock : nat -> timestamp) (uuid_source : nat -> UUID)
    (self : DBService) (newcomer : NewcomerRegistered) (s : state) :
  (exists u, In u (users (db s)) /\ ur_email u = nr_email newcomer) ->
  _create_newcomer clock uuid_source self newcomer s =
    (s, Raised UserAlreadyExists) /\
  (1 <= n_transaction_retries self ->
   create_newcomer clock uuid_source self newcomer s =
     (s, Raised UserAlreadyExists, [Acquire; Begin; Call; Rollback; Release])).
Proof.
  intros Hex. apply verified_count_pos in Hex.
  split.
  - rewrite create_newcomer_unit.
    destruct (Z.gtb_spec (verified_count (nr_email newcomer) (db s)) 0);
      [reflexivity | lia].
  - intros Hn.
    destruct (create_newcomer_cases clock uuid_source self newcomer s)
      as [[H _] | [[_ [_ H]] | [[_ [H _]] | [[_ [H _]] | [_ [H _]]]]]];
      solve [exact H | lia].
Qed.

Lemma register_all_cons clock uuid_source self x rest s :
  register_all clock uuid_source self (x :: rest) s =
  let '(s1, r, _) := create_newcomer clock uuid_source self x s in
  let '(s2, rs) := register_all clock uuid_source self rest s1 in
  (s2, r :: rs).
Proof. reflexivity. Qed.

(** C6. Let no row of [users] carry the email, and let the email have [c]
    pending signups, [c] at most the configured maximum.  Of
    [max - c + 1] registrations with that email made one after the
    other, those before the last being of inputs that the store can hold
    (no character NUL in their texts), the first [max - c] return a
    newcomer and the last one raises [TooManyNewcomersWithSameEmail]; the
    last one changes no table, so that exactly [max] pending signups
    carry the email afterwards.  With [c = 0]: [max] successes, then the
    failure. *)
Theorem pending_signups_per_email_are_capped
    (clock : nat -> timestamp) (uuid_source : nat -> UUID)
    (self : DBService) (email : string)
    (inputs : list NewcomerRegistered) (s : state) :
  1 <= n_transaction_retries self ->
  verified_count email (db s) = 0 ->
  pending_count email (db s) <= max_newcomers_with_same_email self ->
  Forall (fun x => nr_email x = email) inputs ->
  Forall (fun x => storable x = true) (removelast inputs) ->
  Z.of_nat (List.length inputs) =
    max_newcomers_with_same_email self - pending_count email (db s) + 1 ->
  let '(s', rs) := register_all clock uuid_source self inputs s in
  (exists created : list Newcomer,
      rs = map (@Returned Newcomer) created
             ++ [Raised TooManyNewcomersWithSameEmail] /\
      Z.of_nat (List.length created) =
        max_newcomers_with_same_email self - pending_count email (db s)) /\
  pending_count email (db s') = max_newcomers_with_same_email self /\
  db s' = db (fst (register_all clock uuid_source self (removelast inputs) s)).
Proof.
  intros Hn. revert s.
  induction inputs as [| x rest IH]; intros s Hv Hp Hall Hstore Hlen.
  - simpl in Hlen. lia.
  - inversion Hall as [| x' rest' Hx Hrest]; subst x' rest'.
    rewrite register_all_cons.
    pose proof (create_newcomer_cases clock uuid_source self x s) as Hcases.
    cbv zeta in Hcases. rewrite Hx in Hcases.
    destruct Hcases
      as [[H _] | [[_ [H _]] | [[_ [_ [Hfull Hc]]]
                                | [[_ [_ [Hroom [_ Hc]]]]
                                  | [_ [_ [Hroom [Hrefused _]]]]]]]];
      try lia.
    + (* the cap is reached: this is the last registration *)
      rewrite Hc.
      assert (rest = []) as ->.
      { destruct rest; [reflexivity | simpl in Hlen; lia]. }
      simpl. split; [| split; [lia | reflexivity]].
      exists []. split; [reflexivity | simpl; lia].
    + (* room is left and the input is stored *)
      rewrite Hc.
      pose proof (pending_count_after_insert clock uuid_source x s) as Hp1.
      rewrite Hx in Hp1.
      destruct rest as [| y rest]; [simpl in Hlen; lia |].
      change (removelast (x :: y :: rest))
        with (x :: removelast (y :: rest)) in Hstore |- *.
      inversion Hstore as [| x' rest' _ Hstore']; subst x' rest'.
      change (List.length (x :: y :: rest))
        with (S (List.length (y :: rest))) in Hlen.
      specialize (IH (after_insert clock uuid_source x s)).
      rewrite Hp1 in IH.
      specialize (IH Hv ltac:(lia) Hrest Hstore' ltac:(lia)).
      rewrite (register_all_cons clock uuid_source self x
                 (removelast (y :: rest)) s), Hc.
      destruct (register_all clock uuid_source self (y :: rest)
                  (after_insert clock uuid_source x s)) as [s2 rs] eqn:E2.
      destruct (register_all clock uuid_source self (removelast (y :: rest))
                  (after_insert clock uuid_source x s)) as [s3 rs3] eqn:E3.
      destruct IH as [[created [Hrs Hcr]] [Hcount Hdb]].
      split; [| split; [exact Hcount | exact Hdb]].
      exists (public_fields (new_row clock uuid_source x s) :: created).
      split; [rewrite Hrs; reflexivity | simpl List.length; lia].
    + (* room is left and the input cannot be stored: excluded *)
      exfalso.
      destruct rest as [| y rest]; [simpl in Hlen; lia |].
      change (removelast (x :: y :: rest))
        with (x :: removelast (y :: rest)) in Hstore.
      inversion Hstore as [| x' rest' Hsx _]; subst x' rest'.
      congruence.
Qed.

Lemma save_registration_token_eval tok s :
  save_registration_token tok s =
  (with_db (add_registration_token tok (db s)) s, Returned tt).
Proof. destruct tok. reflexivity. Qed.

Lemma has_newcomer_after_insert clock uuid_source newcomer s :
  has_newcomer (db (after_insert clock uuid_source newcomer s))
    (uuid_source (uuids_drawn s)) = true.
Proof.
  unfold has_newcomer. simpl. rewrite existsb_app. simpl.
  rewrite N.eqb_refl. apply orb_true_iff. right. reflexivity.
Qed.

(** C1, as amended. A successful [create_newcomer] commits the row of the
    newcomer alone: the [newcomers] table gains the row whose public
    fields are returned, and the [registration_tokens] and [users] tables
    are as before, so that the new row is stored while no token row has
    been written for it.  The token row is written afterwards by
    [save_registration_token], a statement of its own: it appends the
    token and leaves [newcomers] alone, after which both rows are stored.
    A [create_newcomer] that raises leaves the three tables as they
    were. *)
Theorem newcomer_is_committed_before_its_token
    (clock : nat -> timestamp) (uuid_source : nat -> UUID)
    (self : DBService) (newcomer : NewcomerRegistered) (s : state) :
  (forall s1 created tr,
      create_newcomer clock uuid_source self newcomer s
        = (s1, Returned created, tr) ->
      (exists row, public_fields row = created /\
                   newcomers (db s1) = newcomers (db s) ++ [row]) /\
      registration_tokens (db s1) = registration_tokens (db s) /\
      users (db s1) = users (db s) /\
      has_newcomer (db s1) (n_user_id created) = true /\
      has_registration_token (db s1) (n_user_id created)
        = has_registration_token (db s) (n_user_id created) /\
      forall tok, user_id tok = n_user_id created ->
        exists s2,
          save_registration_token tok s1 = (s2, Returned tt) /\
          newcomers (db s2) = newcomers (db s1) /\
          registration_tokens (db s2) = registration_tokens (db s1) ++ [tok] /\
          has_newcomer (db s2) (n_user_id created) = true /\
          has_registration_token (db s2) (n_user_id created) = true) /\
  (forall s1 e tr,
      create_newcomer clock uuid_source self newcomer s = (s1, Raised e, tr) ->
      db s1 = db s).
Proof.
  pose proof (create_newcomer_cases clock uuid_source self newcomer s) as Hcases.
  cbv zeta in Hcases.
  split.
  - intros s1 created tr Hrun.
    destruct Hcases
      as [[_ H] | [[_ [_ H]] | [[_ [_ [_ H]]]
                                | [[_ [_ [_ [_ H]]]] | [_ [_ [_ [_ H]]]]]]]];
      rewrite H in Hrun; try discriminate.
    injection Hrun as <- <- _.
    split; [eexists; split; reflexivity |].
    split; [reflexivity |]. split; [reflexivity |].
    split; [apply has_newcomer_after_insert |].
    split; [reflexivity |].
    intros tok Htok. eexists. split; [apply save_registration_token_eval |].
    split; [reflexivity |]. split; [reflexivity |].
    split; [apply has_newcomer_after_insert |].
    unfold has_registration_token. simpl. rewrite existsb_app. simpl.
    simpl in Htok. rewrite Htok, N.eqb_refl.
    apply orb_true_iff. right. reflexivity.
  - intros s1 e tr Hrun.
    destruct Hcases
      as [[_ H] | [[_ [_ H]] | [[_ [_ [_ H]]]
                                | [[_ [_ [_ [_ H]]]] | [_ [_ [_ [_ H]]]]]]]];
      rewrite H in Hrun; try discriminate;
      injection Hrun as <- _ _; reflexivity.
Qed.

(** C1, as stated, fails: after the registration of [ivan] in an empty
    store has been committed by [create_newcomer], the row of the
    newcomer is stored and no token row is. *)
Lemma newcomer_observable_without_token :
  exists s1 created tr,
    create_newcomer sample_clock sample_uuids sample_service ivan empty_state
      = (s1, Returned created, tr) /\
    signups_and_tokens_paired (db empty_state) = true /\
    has_newcomer (db s1) (n_user_id created) = true /\
    has_registration_token (db s1) (n_user_id created) = false /\
    signups_and_tokens_paired (db s1) = false.
Proof.
  eexists. eexists. eexists.
  split; [vm_compute; reflexivity |].
  repeat split.
Qed.

(** ** The verification workflow *)

Lemma get_newcomer_by_token_eval clock tok s :
  _get_newcomer_by_token clock tok s =
  (tick s,
   Returned (hd_error (filter (token_matches tok (clock (ticks s)))
                              (newcomers_join_tokens (db s))))).
Proof. reflexivity. Qed.

(** The two ways in which the unit of work of a verification ends:
    neither returns. *)
Lemma verify_newcomer_unit clock tok s :
  _verify_newcomer clock tok s =
  match hd_error (filter (token_matches tok (clock (ticks s)))
                         (newcomers_join_tokens (db s))) with
  | None => (tick s, Raised TokenNotFound)
  | Some _ => (tick s, Raised AttributeError)
  end.
Proof.
  unfold _verify_newcomer. unfold bind at 1.
  rewrite get_newcomer_by_token_eval.
  destruct (hd_error _) as [record |]; reflexivity.
Qed.

Lemma verify_newcomer_unit_raises clock tok s :
  exists s' e, _verify_newcomer clock tok s = (s', Raised e) /\ db s' = db s.
Proof.
  rewrite verify_newcomer_unit.
  destruct (hd_error _) as [record |];
    eexists; eexists; split; reflexivity.
Qed.

(** A unit of work that always raises makes the loop raise. *)
Lemma retry_loop_of_raising_work self T (func : action T) :
  (forall s, exists s' e, func s = (s', Raised e) /\ db s' = db s) ->
  forall attempts interval s,
  exists s' e tr,
    retry_loop self func attempts interval s = (s', Raised e, tr) /\
    db s' = db s.
Proof.
  intros Hf attempts.
  induction attempts as [| attempt rest IH]; intros interval s.
  - exists s, UnboundLocalError, []. split; reflexivity.
  - destruct (Hf s) as [s1 [e [Hs1 _]]].
    simpl. rewrite (transaction_raised func s Hs1).
    destruct e;
      try (eexists; eexists; eexists; split; [reflexivity | reflexivity]).
    destruct (attempt =? n_transaction_retries self - 1).
    + eexists; eexists; eexists; split; reflexivity.
    + destruct (IH (interval * transaction_retry_interval_factor self)%float
                   (rollback s s1)) as [s2 [e2 [tr2 [H2 Hdb2]]]].
      rewrite H2. eexists; eexists; eexists; split; [reflexivity |].
      rewrite Hdb2. reflexivity.
Qed.

Lemma filter_none (A : Type) (f : A -> bool) (l : list A) :
  (forall x, In x l -> f x = false) -> filter f l = [].
Proof.
  induction l as [| a l IH]; intros H; [reflexivity |].
  simpl. rewrite (H a) by (left; reflexivity).
  apply IH. intros x Hx. apply H. right. exact Hx.
Qed.

Lemma filter_some (A : Type) (f : A -> bool) (l : list A) (x : A) :
  In x l -> f x = true -> exists y, hd_error (filter f l) = Some y.
Proof.
  intros Hin Hfx.
  assert (Hf : In x (filter f l)) by (apply filter_In; split; assumption).
  destruct (filter f l) as [| y l']; [contradiction |].
  exists y. reflexivity.
Qed.

Lemma in_newcomers_join_tokens d nc rt :
  In (nc, rt) (newcomers_join_tokens d) <->
  In nc (newcomers d) /\ In rt (registration_tokens d) /\
  nc_user_id nc = user_id rt.
Proof.
  unfold newcomers_join_tokens. rewrite in_flat_map. split.
  - intros [n [Hn Hin]]. apply in_map_iff in Hin.
    destruct Hin as [rt' [Heq Hrt]]. injection Heq as -> ->.
    apply filter_In in Hrt. destruct Hrt as [Hrt Hid].
    apply N.eqb_eq in Hid. repeat split; assumption.
  - intros [Hn [Hrt Hid]]. exists nc. split; [exact Hn |].
    apply in_map_iff. exists rt. split; [reflexivity |].
    apply filter_In. split; [exact Hrt |]. apply N.eqb_eq. exact Hid.
Qed.

(** No row of the join passes the condition of the lookup when every
    token row with the presented string has expired. *)
Lemma lookup_finds_nothing tok now d :
  (forall rt, In rt (registration_tokens d) -> token rt = tok ->
              expired_at rt <= now) ->
  hd_error (filter (token_matches tok now) (newcomers_join_tokens d)) = None.
Proof.
  intros H. rewrite filter_none; [reflexivity |].
  intros [nc rt] Hin. apply in_newcomers_join_tokens in Hin.
  destruct Hin as [_ [Hrt _]]. unfold token_matches. simpl.
  destruct (String.eqb_spec (token rt) tok) as [Heq | Hne]; [| reflexivity].
  simpl. specialize (H rt Hrt Heq).
  destruct (Z.gtb_spec (expired_at rt) now); [lia | reflexivity].
Qed.

Lemma verify_newcomer_not_found clock self tok s :
  hd_error (filter (token_matches tok (clock (ticks s)))
                   (newcomers_join_tokens (db s))) = None ->
  _verify_newcomer clock tok s = (tick s, Raised TokenNotFound) /\
  (1 <= n_transaction_retries self ->
   verify_newcomer clock self tok s =
     (tick s, Raised TokenNotFound, [Acquire; Begin; Call; Rollback; Release])).
Proof.
  intros Hnone.
  assert (Hu : _verify_newcomer clock tok s = (tick s, Raised TokenNotFound)).
  { rewrite verify_newcomer_unit, Hnone. reflexivity. }
  split; [exact Hu |].
  intros Hn. unfold verify_newcomer.
  rewrite (@execute_ends_at self _ _ 0%nat s (rollback s (tick s))
             (Raised TokenNotFound) [Begin; Call; Rollback]).
  - reflexivity.
  - intros j Hj. lia.
  - simpl. lia.
  - simpl. apply transaction_raised. exact Hu.
  - left. discriminate.
Qed.

(** C7. When every row of [registration_tokens] that carries the
    presented string (there may be none) has an [expired_at] that is not
    later than the time read by the lookup, the unit of work
    [_verify_newcomer] raises [TokenNotFound] and leaves the three tables
    as they were; so does the method [verify_newcomer], after a single
    attempt, as soon as the executor is allowed one attempt. *)
Theorem unknown_or_expired_token_is_not_found
    (clock : nat -> timestamp) (self : DBService) (tok : string) (s : state) :
  (forall rt, In rt (registration_tokens (db s)) -> token rt = tok ->
              expired_at rt <= clock (ticks s)) ->
  snd (_verify_newcomer clock tok s) = Raised TokenNotFound /\
  db (fst (_verify_newcomer clock tok s)) = db s /\
  (1 <= n_transaction_retries self ->
   snd (fst (verify_newcomer clock self tok s)) = Raised TokenNotFound /\
   db (fst (fst (verify_newcomer clock self tok s))) = db s /\
   snd (verify_newcomer clock self tok s)
     = [Acquire; Begin; Call; Rollback; Release]).
Proof.
  intros Hexp.
  destruct (@verify_newcomer_not_found clock self tok s
              (@lookup_finds_nothing tok (clock (ticks s)) (db s) Hexp))
    as [Hu Hm].
  rewrite Hu. split; [reflexivity |]. split; [reflexivity |].
  intros Hn. rewrite (Hm Hn). repeat split.
Qed.

(** C10. The lookup compares [expired_at] with the time it reads by a
    strict "later than".  When every token row that carries the presented
    string expires exactly at that time, [_verify_newcomer] and
    [verify_newcomer] raise [TokenNotFound].  When a pending signup has a
    token row with the presented string whose [expired_at] is later than
    the time read, the lookup finds a row and the verification does not
    raise [TokenNotFound]. *)
Theorem token_expiry_is_strict
    (clock : nat -> timestamp) (self : DBService) (tok : string) (s : state) :
  (forall rt, In rt (registration_tokens (db s)) -> token rt = tok ->
              expired_at rt = clock (ticks s)) ->
  snd (_verify_newcomer clock tok s) = Raised TokenNotFound /\
  (1 <= n_transaction_retries self ->
   snd (fst (verify_newcomer clock self tok s)) = Raised TokenNotFound) /\
  (forall s0 nc rt,
      In nc (newcomers (db s0)) ->
      In rt (registration_tokens (db s0)) ->
      nc_user_id nc = user_id rt ->
      token rt = tok ->
      clock (ticks s0) < expired_at rt ->
      (exists row, _get_newcomer_by_token clock tok s0
                   = (tick s0, Returned (Some row))) /\
      snd (_verify_newcomer clock tok s0) <> Raised TokenNotFound).
Proof.
  intros Hexp.
  assert (Hnone : hd_error (filter (token_matches tok (clock (ticks s)))
                                   (newcomers_join_tokens (db s))) = None).
  { apply lookup_finds_nothing. intros rt Hin Htok.
    rewrite (Hexp rt Hin Htok). lia. }
  destruct (@verify_newcomer_not_found clock self tok s Hnone) as [Hu Hm].
  split; [rewrite Hu; reflexivity |].
  split; [intros Hn; rewrite (Hm Hn); reflexivity |].
  intros s0 nc rt Hnc Hrt Hid Htok Hlater.
  assert (Hfound : exists row,
             hd_error (filter (token_matches tok (clock (ticks s0)))
                              (newcomers_join_tokens (db s0))) = Some row).
  { apply filter_some with (x := (nc, rt)).
    - apply in_newcomers_join_tokens. repeat split; assumption.
    - unfold token_matches. simpl. rewrite Htok, String.eqb_refl. simpl.
      destruct (Z.gtb_spec (expired_at rt) (clock (ticks s0)));
        [reflexivity | lia]. }
  destruct Hfound as [row Hrow]. split.
  - exists row. rewrite get_newcomer_by_token_eval, Hrow. reflexivity.
  - rewrite verify_newcomer_unit, Hrow. simpl. discriminate.
Qed.

(** C2. No call of [verify_newcomer] returns a [User]: every call
    raises and leaves the three tables as they were.  On a stored pending
    signup with a valid token and no verified account the lookup finds
    the row, and reading [newcomer.email] on the Record found raises
    [AttributeError] after the one reading of the clock made by the
    lookup: neither the recheck nor the insert into [users] is reached.
    The insert could not write what the claim says either: the statement
    has five parameters, its [VALUES] list reads the fifth one (the
    [created_at] of the signup) for the columns [created_at],
    [verified_at] and [role], and seven arguments are passed, the last two
    ([utc_now()] and [UserRole.user]) being referenced by no
    placeholder. *)
Theorem verification_never_inserts_a_user :
  (forall clock self tok s,
      exists s' e tr,
        verify_newcomer clock self tok s = (s', Raised e, tr) /\
        db s' = db s) /\
  verify_newcomer sample_clock sample_service "t0k3n"%string pending_state =
    ({| db := db pending_state; ticks := 1; uuids_drawn := 1 |},
     Raised AttributeError,
     [Acquire; Begin; Call; Rollback; Release]) /\
  n_parameters insert_user_placeholders = 5%nat /\
  (forall a1 a2 a3 a4 a5 a6 a7,
      map (fun k => nth (k - 1)%nat [a1; a2; a3; a4; a5; a6; a7] SqlNull)
          insert_user_placeholders
      = [a1; a2; a3; a4; a5; a5; a5]).
Proof.
  split; [| split; [vm_compute; reflexivity | split; reflexivity]].
  intros clock self tok s. unfold verify_newcomer, execute_serializable_transaction.
  destruct (@retry_loop_of_raising_work self User (_verify_newcomer clock tok)
              (verify_newcomer_unit_raises clock tok)
              (range (n_transaction_retries self))
              (transaction_retry_interval_first self) s)
    as [s' [e [tr [Hrun Hdb]]]].
  rewrite Hrun. exists s', e, (Acquire :: tr ++ [Release]).
  split; [reflexivity | exact Hdb].
Qed.

(** ** The [get_user] endpoint *)

(** C8. A caller whose role is not [admin] gets [NotFoundException] from
    [get_user], whatever the requested identifier, the store and the
    repository behind the endpoint are: the answer when the requested
    user is stored is the answer when it is not; the store is not
    consulted, and the answer is never [ForbiddenException]. *)
Theorem non_admin_caller_gets_not_found
    (db_get_user db_get_user' : UUID -> action User)
    (user_id : UUID) (user : User) (s s' : state) :
  u_role user <> UserRole.admin ->
  get_user db_get_user user_id user s = (s, Raised NotFoundException) /\
  snd (get_user db_get_user user_id user s)
    = snd (get_user db_get_user' user_id user s') /\
  snd (get_user db_get_user user_id user s) <> Raised ForbiddenException.
Proof.
  intros Hrole.
  assert (H : forall f s0,
             get_user f user_id user s0 = (s0, Raised NotFoundException)).
  { intros f s0. unfold get_user.
    destruct (u_role user); [reflexivity | contradiction]. }
  rewrite !H. repeat split. simpl. discriminate.
Qed.

(** ** The statements at the sample data *)

(** Three attempts allowed, all three refused by the store: the unit of
    work has drawn three identifiers and read the clock three times,
    there were two sleeps, of 0.5 and 1 second, and the conflict reaches
    the caller. *)
Lemma serialization_conflicts_are_retried_with_backoff_witness :
  Z.of_nat 2 <= n_transaction_retries sample_service - 1 /\
  snd (conflicting_work (execution_start conflicting_work empty_state 2))
  = Raised SerializationError /\
  sleep_returns 0.5 = true /\ sleep_returns 1 = true /\
  let '(s', r, tr) :=
    execute_serializable_transaction sample_service conflicting_work
      empty_state in
  r = Raised SerializationError /\
  s' = {| db := db empty_state; ticks := 3; uuids_drawn := 3 |} /\
  executions tr = 3%nat /\
  sleeps tr = [0.5; 1]%float /\
  tr = [Acquire; Begin; Call; Rollback; Sleep 0.5; Begin; Call; Rollback;
        Sleep 1; Begin; Call; Rollback; Release].
Proof.
  assert (H1 : forall j, (j < 2)%nat ->
             snd (conflicting_work
                    (execution_start conflicting_work empty_state j))
             = Raised SerializationError).
  { intros j Hj. destruct j as [| [| j]]; [reflexivity | reflexivity | lia]. }
  assert (H0 : forall j, (j < 2)%nat ->
             sleep_returns
               (backoff (transaction_retry_interval_first sample_service)
                  (transaction_retry_interval_factor sample_service) j)
             = true).
  { intros j Hj. destruct j as [| [| j]]; [reflexivity | reflexivity | lia]. }
  assert (H2 : Z.of_nat 2 <= n_transaction_retries sample_service - 1)
    by (simpl; lia).
  assert (H3 : snd (conflicting_work
                      (execution_start conflicting_work empty_state 2))
               <> Raised SerializationError
               \/ Z.of_nat 2 = n_transaction_retries sample_service - 1)
    by (right; reflexivity).
  split; [exact H2 |]. split; [reflexivity |].
  split; [reflexivity |]. split; [reflexivity |].
  pose proof (@serialization_conflicts_are_retried_with_backoff
                sample_service Newcomer conflicting_work empty_state 2%nat
                H1 H0 H2 H3) as H.
  cbv zeta in H.
  destruct (execute_serializable_transaction sample_service conflicting_work
              empty_state) as [[s' r] tr].
  destruct H as [Hr [Hs [Htr [Hex [Hsl _]]]]].
  split; [rewrite Hr; reflexivity |].
  split; [rewrite Hs; reflexivity |].
  split; [exact Hex |].
  split; [rewrite Hsl; reflexivity |].
  rewrite Htr, Hr. reflexivity.
Defined.

(** A registration with a verified email: one attempt, no sleep. *)
Lemma domain_errors_propagate_without_retry_witness :
  1 <= n_transaction_retries sample_service /\
  UserAlreadyExists <> SerializationError /\
  execute_serializable_transaction sample_service
    (_create_newcomer sample_clock sample_uuids sample_service ivan)
    verified_state
  = (rollback verified_state verified_state, Raised UserAlreadyExists,
     [Acquire; Begin; Call; Rollback; Release]).
Proof.
  assert (H1 : 1 <= n_transaction_retries sample_service) by (simpl; lia).
  assert (H2 : UserAlreadyExists <> SerializationError) by discriminate.
  split; [exact H1 |]. split; [exact H2 |].
  exact (proj1 (@domain_errors_propagate_without_retry sample_service Newcomer
                  (_create_newcomer sample_clock sample_uuids sample_service ivan)
                  verified_state verified_state UserAlreadyExists
                  H1 eq_refl H2)).
Defined.

(** A service configured with no attempt at all. *)
Lemma executor_needs_at_least_one_attempt_witness :
  n_transaction_retries unusable_service <= 0 /\
  execute_serializable_transaction unusable_service
    (_create_newcomer sample_clock sample_uuids unusable_service ivan)
    empty_state
  = (empty_state, Raised UnboundLocalError, [Acquire; Release]).
Proof.
  assert (H : n_transaction_retries unusable_service <= 0) by (simpl; lia).
  split; [exact H |].
  exact (proj1 (proj1 (@executor_needs_at_least_one_attempt unusable_service
                         Newcomer
                         (_create_newcomer sample_clock sample_uuids
                            unusable_service ivan)
                         empty_state) H)).
Defined.

(** The email of [ivan] is verified: the registration is refused. *)
Lemma registration_of_verified_email_fails_witness :
  (exists u, In u (users (db verified_state)) /\ ur_email u = nr_email ivan) /\
  create_newcomer sample_clock sample_uuids sample_service ivan verified_state
  = (verified_state, Raised UserAlreadyExists,
     [Acquire; Begin; Call; Rollback; Release]).
Proof.
  assert (H : exists u, In u (users (db verified_state))
                        /\ ur_email u = nr_email ivan).
  { exists ivan_verified. split; [left; reflexivity | reflexivity]. }
  split; [exact H |].
  apply (proj2 (@registration_of_verified_email_fails sample_clock sample_uuids
                  sample_service ivan verified_state H)).
  simpl. lia.
Defined.

(** A maximum of three: four registrations of the same email. *)
Lemma pending_signups_per_email_are_capped_witness :
  storable ivan = true /\
  verified_count "i@v.an"%string (db empty_state) = 0 /\
  pending_count "i@v.an"%string (db empty_state) = 0 /\
  let '(s', rs) :=
    register_all sample_clock sample_uuids sample_service
      [ivan; ivan; ivan; ivan] empty_state in
  pending_count "i@v.an"%string (db s') = 3 /\
  nth 3 rs (Raised DataError) = Raised TooManyNewcomersWithSameEmail.
Proof.
  split; [reflexivity |]. split; [reflexivity |]. split; [reflexivity |].
  pose proof (@pending_signups_per_email_are_capped sample_clock sample_uuids
                sample_service "i@v.an"%string [ivan; ivan; ivan; ivan] empty_state)
    as H.
  assert (H1 : 1 <= n_transaction_retries sample_service) by (simpl; lia).
  assert (H3 : pending_count "i@v.an"%string (db empty_state)
               <= max_newcomers_with_same_email sample_service)
    by (unfold pending_count; simpl; lia).
  assert (H4 : Forall (fun x => nr_email x = "i@v.an"%string)
                 [ivan; ivan; ivan; ivan])
    by (repeat constructor).
  assert (H5 : Forall (fun x => storable x = true)
                 (removelast [ivan; ivan; ivan; ivan]))
    by (repeat constructor).
  specialize (H H1 eq_refl H3 H4 H5 eq_refl).
  destruct (register_all sample_clock sample_uuids sample_service
              [ivan; ivan; ivan; ivan] empty_state) as [s' rs].
  destruct H as [[created [Hrs Hlen]] [Hcount _]].
  split; [exact Hcount |].
  rewrite Hrs.
  unfold pending_count in Hlen. simpl in Hlen.
  destruct created as [| c1 [| c2 [| c3 [| c4 created]]]];
    simpl List.length in Hlen; try lia.
  reflexivity.
Defined.

(** With a maximum of three, a registration whose name contains the
    character NUL followed by three registrations of [ivan]: the first
    is refused by the store and the three others are stored. *)
Lemma registration_of_a_name_with_nul_is_refused :
  let '(s', rs) :=
    register_all sample_clock sample_uuids sample_service
      [nul_name; ivan; ivan; ivan] empty_state in
  nth 0 rs (Raised DataError) = Raised CharacterNotInRepertoireError /\
  List.length (successes rs) = 3%nat /\
  pending_count "i@v.an"%string (db s') = 3.
Proof. vm_compute. repeat split. Qed.

(** A registration of [ivan] in an empty store, then its token. *)
Lemma newcomer_is_committed_before_its_token_witness :
  create_newcomer sample_clock sample_uuids sample_service ivan empty_state
  = (after_insert sample_clock sample_uuids ivan empty_state,
     Returned (public_fields ivan_row),
     [Acquire; Begin; Call; Commit; Release]) /\
  registration_tokens
    (db (after_insert sample_clock sample_uuids ivan empty_state)) = [] /\
  has_newcomer
    (db (after_insert sample_clock sample_uuids ivan empty_state)) 7%N = true.
Proof.
  assert (Hrun :
    create_newcomer sample_clock sample_uuids sample_service ivan empty_state
    = (after_insert sample_clock sample_uuids ivan empty_state,
       Returned (public_fields ivan_row),
       [Acquire; Begin; Call; Commit; Release])) by reflexivity.
  split; [exact Hrun |].
  destruct (proj1 (@newcomer_is_committed_before_its_token sample_clock
                     sample_uuids sample_service ivan empty_state)
              _ _ _ Hrun) as [_ [Htok [_ [Hnew _]]]].
  split; [exact Htok | exact Hnew].
Defined.

(** A token string that was never issued. *)
Lemma unknown_or_expired_token_is_not_found_witness :
  (forall rt, In rt (registration_tokens (db pending_state)) ->
              token rt = "n0t-1ssued"%string ->
              expired_at rt <= sample_clock (ticks pending_state)) /\
  snd (_verify_newcomer sample_clock "n0t-1ssued"%string pending_state)
  = Raised TokenNotFound /\
  db (fst (_verify_newcomer sample_clock "n0t-1ssued"%string pending_state))
  = db pending_state.
Proof.
  assert (H : forall rt, In rt (registration_tokens (db pending_state)) ->
                         token rt = "n0t-1ssued"%string ->
                         expired_at rt <= sample_clock (ticks pending_state)).
  { intros rt [<- | []] Htok. discriminate Htok. }
  split; [exact H |].
  destruct (@unknown_or_expired_token_is_not_found sample_clock sample_service
              "n0t-1ssued"%string pending_state H) as [Hr [Hdb _]].
  split; [exact Hr | exact Hdb].
Defined.

(** The token of [ivan] expires at 5000 and the clock reads 5000. *)
Lemma token_expiry_is_strict_witness :
  (forall rt, In rt (registration_tokens (db expiry_instant_state)) ->
              token rt = "t0k3n"%string ->
              expired_at rt = sample_clock (ticks expiry_instant_state)) /\
  snd (_verify_newcomer sample_clock "t0k3n"%string expiry_instant_state)
  = Raised TokenNotFound.
Proof.
  assert (H : forall rt, In rt (registration_tokens (db expiry_instant_state)) ->
                         token rt = "t0k3n"%string ->
                         expired_at rt = sample_clock (ticks expiry_instant_state)).
  { intros rt [<- | []] _. reflexivity. }
  split; [exact H |].
  exact (proj1 (@token_expiry_is_strict sample_clock sample_service
                  "t0k3n"%string expiry_instant_state H)).
Defined.

(** A plain user asks for a user that is stored, and for one that is
    not. *)
Lemma non_admin_caller_gets_not_found_witness :
  u_role plain_caller <> UserRole.admin /\
  get_user (fun _ => ret plain_caller) 7%N plain_caller verified_state
  = (verified_state, Raised NotFoundException) /\
  snd (get_user (fun _ => ret plain_caller) 7%N plain_caller verified_state)
  = snd (get_user (fun _ => raise UserNotExists) 7%N plain_caller empty_state).
Proof.
  assert (H : u_role plain_caller <> UserRole.admin) by discriminate.
  split; [exact H |].
  destruct (@non_admin_caller_gets_not_found
              (fun _ => ret plain_caller) (fun _ => raise UserNotExists)
              7%N plain_caller verified_state empty_state H) as [H1 [H2 _]].
  split; [exact H1 | exact H2].
Defined.

(** * Further properties *)

(** ** The executor on an arbitrary unit of work *)

Lemma transactions_opened_app tr1 tr2 :
  transactions_opened (tr1 ++ tr2)
  = (transactions_opened tr1 + transactions_opened tr2)%nat.
Proof. unfold transactions_opened. rewrite filter_app, length_app. reflexivity. Qed.

Lemma commits_app tr1 tr2 : commits (tr1 ++ tr2) = (commits tr1 + commits tr2)%nat.
Proof. unfold commits. rewrite filter_app, length_app. reflexivity. Qed.

Lemma rollbacks_app tr1 tr2 :
  rollbacks (tr1 ++ tr2) = (rollbacks tr1 + rollbacks tr2)%nat.
Proof. unfold rollbacks. rewrite filter_app, length_app. reflexivity. Qed.

Lemma backoff_schedule_cons interval factor k :
  interval :: map (backoff (interval * factor)%float factor) (seq 0 k)
  = map (backoff interval factor) (seq 0 (S k)).
Proof.
  change (seq 0 (S k)) with (0%nat :: seq 1 k). rewrite map_cons.
  rewrite <- seq_shift, map_map. reflexivity.
Qed.

Lemma loop_run_ok_final T (func : action T) interval factor m s s' r tr :
  (1 <= m)%nat ->
  transaction func s = (s', r, tr) ->
  loop_run_ok func interval factor m s s' r tr.
Proof.
  intros Hm. unfold transaction.
  destruct (func s) as [s1 [v | e]] eqn:Hf; intros H;
    injection H as <- <- <-; unfold loop_run_ok;
    (split; [unfold executions; simpl; lia |]);
    (split; [reflexivity |]); (split; [reflexivity |]);
    (split; [reflexivity |]); (split; [reflexivity |]);
    (split; [reflexivity |]); split.
  - exists s. rewrite Hf. split; [reflexivity |]. split; [reflexivity |].
    intros v0 _. reflexivity.
  - intros e He. discriminate He.
  - exists s. rewrite Hf. split; [reflexivity |]. split; [reflexivity |].
    intros v0 Hv. discriminate Hv.
  - intros e0 _. reflexivity.
Qed.

Lemma retry_loop_shape self T (func : action T) :
  forall m a interval s s' r tr,
    Z.of_nat (a + m) = n_transaction_retries self ->
    (1 <= m)%nat ->
    retry_loop self func (map Z.of_nat (seq a m)) interval s = (s', r, tr) ->
    loop_run_ok func interval (transaction_retry_interval_factor self)
      m s s' r tr.
Proof.
  induction m as [| m IH]; intros a interval s s' r tr Ha Hm Hrun; [lia |].
  change (seq a (S m)) with (a :: seq (S a) m) in Hrun.
  rewrite map_cons in Hrun.
  destruct (transaction func s) as [[s1 r1] tr1] eqn:Htx.
  assert (Hfinal : r1 <> Raised SerializationError
                   \/ Z.of_nat a = n_transaction_retries self - 1 ->
                   loop_run_ok func interval
                     (transaction_retry_interval_factor self) (S m) s s' r tr).
  { intros Hend.
    rewrite (@retry_loop_final self T func (Z.of_nat a) _ interval s s1 r1 tr1
               Htx Hend) in Hrun.
    injection Hrun as <- <- <-.
    apply loop_run_ok_final; [lia | exact Htx]. }
  destruct (Z.eq_dec (Z.of_nat a) (n_transaction_retries self - 1)) as [Hlast | Hmore];
    [apply Hfinal; right; exact Hlast |].
  destruct r1 as [v | e]; [apply Hfinal; left; discriminate |].
  destruct e; try (apply Hfinal; left; discriminate).
  (* a conflict, and attempts are left *)
  rewrite (@retry_loop_conflict self T func (Z.of_nat a) _ interval s s1 tr1
             Htx Hmore) in Hrun.
  destruct (@transaction_raised_inv T func s s1 SerializationError tr1 Htx)
    as [-> Hdb1].
  destruct (retry_loop self func (map Z.of_nat (seq (S a) m))
              (interval * transaction_retry_interval_factor self)%float s1)
    as [[s2 r2] tr2] eqn:Hrest.
  injection Hrun as <- <- <-.
  destruct (IH (S a) _ s1 s2 r2 tr2 ltac:(lia) ltac:(lia) Hrest)
    as [Hex [Hsl [Hsched [Hop [Hcr [Hcom [[s0 [Hs0 [Hr0 Hv0]]] Hfail]]]]]]].
  unfold loop_run_ok.
  set (tr := Begin :: Call :: Rollback :: Sleep interval :: tr2).
  change (executions tr) with (S (executions tr2)).
  change (transactions_opened tr) with (S (transactions_opened tr2)).
  change (commits tr) with (commits tr2).
  change (rollbacks tr) with (S (rollbacks tr2)).
  change (sleeps tr) with (interval :: sleeps tr2).
  split; [lia |].
  split; [simpl List.length; lia |].
  split; [simpl List.length; rewrite Hsched at 1; apply backoff_schedule_cons |].
  split; [lia |]. split; [lia |]. split; [exact Hcom |].
  split.
  - exists s0. split; [rewrite Hs0; exact Hdb1 |]. split; assumption.
  - intros e He. rewrite (Hfail e He). exact Hdb1.
Qed.

Lemma counts_between_acquire_and_release tr :
  executions (Acquire :: tr ++ [Release]) = executions tr /\
  sleeps (Acquire :: tr ++ [Release]) = sleeps tr /\
  transactions_opened (Acquire :: tr ++ [Release]) = transactions_opened tr /\
  commits (Acquire :: tr ++ [Release]) = commits tr /\
  rollbacks (Acquire :: tr ++ [Release]) = rollbacks tr.
Proof.
  change (Acquire :: tr ++ [Release]) with ([Acquire] ++ tr ++ [Release]).
  rewrite !executions_app, !sleeps_app, !transactions_opened_app,
    !commits_app, !rollbacks_app.
  simpl. rewrite app_nil_r.
  change (executions [Release]) with 0%nat.
  change (transactions_opened [Release]) with 0%nat.
  change (commits [Release]) with 0%nat.
  change (rollbacks [Release]) with 0%nat.
  change (executions [Acquire]) with 0%nat.
  change (transactions_opened [Acquire]) with 0%nat.
  change (commits [Acquire]) with 0%nat.
  change (rollbacks [Acquire]) with 0%nat.
  repeat split; lia.
Qed.

(** A call of the executor that is allowed at least one attempt. *)
Lemma execute_run self T (func : action T) s s' r tr :
  1 <= n_transaction_retries self ->
  execute_serializable_transaction self func s = (s', r, tr) ->
  exists tr0,
    tr = Acquire :: tr0 ++ [Release] /\
    loop_run_ok func (transaction_retry_interval_first self)
      (transaction_retry_interval_factor self)
      (Z.to_nat (n_transaction_retries self)) s s' r tr0.
Proof.
  intros Hn. unfold execute_serializable_transaction, range.
  destruct (retry_loop self func
              (map Z.of_nat (seq 0 (Z.to_nat (n_transaction_retries self))))
              (transaction_retry_interval_first self) s)
    as [[s1 r1] tr1] eqn:Hrun.
  intros H. injection H as <- <- <-.
  exists tr1. split; [reflexivity |].
  apply (@retry_loop_shape self T func _ 0%nat _ s s1 r1 tr1); [lia | lia |].
  exact Hrun.
Qed.

Lemma is_conflict_spec T (r : outcome T) :
  is_conflict r = true <-> r = Raised SerializationError.
Proof.
  destruct r as [v | e]; simpl; [split; discriminate |].
  destruct e; simpl; split; congruence.
Qed.

(** Among the executions 0, 1, ..., [m], there is a first one that does
    not raise a serialization conflict, or all of them do. *)
Lemma first_ending_execution T (func : action T) s m :
  exists k, (k <= m)%nat /\
    (forall j, (j < k)%nat ->
               snd (func (execution_start func s j))
               = Raised SerializationError) /\
    (snd (func (execution_start func s k)) <> Raised SerializationError
     \/ k = m).
Proof.
  induction m as [| m [k [Hk [Hbefore Hend]]]].
  - exists 0%nat. split; [lia |]. split; [intros j Hj; lia | right; reflexivity].
  - destruct Hend as [Hne | ->].
    + exists k. split; [lia |]. split; [exact Hbefore | left; exact Hne].
    + destruct (is_conflict (snd (func (execution_start func s m)))) eqn:Hm.
      * apply is_conflict_spec in Hm.
        exists (S m). split; [lia |]. split; [| right; reflexivity].
        intros j Hj. destruct (Nat.eq_dec j m) as [-> | Hjm];
          [exact Hm | apply Hbefore; lia].
      * exists m. split; [lia |]. split; [exact Hbefore |].
        left. intros Habs. apply is_conflict_spec in Habs. congruence.
Qed.

(** Every call that is allowed an attempt is a run of conflicts ended by
    one execution. *)
Lemma execute_is_a_run self T (func : action T) s :
  1 <= n_transaction_retries self ->
  exists k,
    Z.of_nat k <= n_transaction_retries self - 1 /\
    (forall j, (j < k)%nat ->
               snd (func (execution_start func s j))
               = Raised SerializationError) /\
    execute_serializable_transaction self func s =
    (closed_state func (execution_start func s k),
     snd (func (execution_start func s k)),
     Acquire
       :: (conflict_trace (transaction_retry_interval_first self)
             (transaction_retry_interval_factor self) k
           ++ [Begin; Call; closing (snd (func (execution_start func s k)))])
       ++ [Release]).
Proof.
  intros Hn.
  destruct (first_ending_execution func s
              (Z.to_nat (n_transaction_retries self) - 1))
    as [k [Hk [Hbefore Hend]]].
  exists k. split; [lia |]. split; [exact Hbefore |].
  apply execute_in_terms_of_func; [exact Hbefore | lia |].
  destruct Hend as [Hne | ->]; [left; exact Hne | right; lia].
Qed.

Lemma run_trace_counts self T (r : outcome T) k :
  let tr := Acquire
              :: (conflict_trace (transaction_retry_interval_first self)
                    (transaction_retry_interval_factor self) k
                  ++ [Begin; Call; closing r])
              ++ [Release] in
  executions tr = S k /\
  List.length (sleeps tr) = k /\
  commits tr = match r with Returned _ => 1%nat | Raised _ => 0%nat end.
Proof.
  cbv zeta.
  change (Acquire
            :: (conflict_trace (transaction_retry_interval_first self)
                  (transaction_retry_interval_factor self) k
                ++ [Begin; Call; closing r])
            ++ [Release])
    with ([Acquire]
            ++ (conflict_trace (transaction_retry_interval_first self)
                  (transaction_retry_interval_factor self) k
                ++ [Begin; Call; closing r])
            ++ [Release]).
  rewrite !executions_app, !sleeps_app, !commits_app, !length_app.
  rewrite (@executions_conflict_trace self
             (transaction_retry_interval_first self) k).
  rewrite (@sleeps_conflict_trace self
             (transaction_retry_interval_first self) k).
  rewrite length_map, length_seq.
  assert (Hc : forall interval,
             commits (conflict_trace interval
                        (transaction_retry_interval_factor self) k) = 0%nat).
  { induction k as [| k IH]; intros interval; [reflexivity |].
    change (conflict_trace interval (transaction_retry_interval_factor self)
              (S k))
      with ([Begin; Call; Rollback; Sleep interval]
              ++ conflict_trace
                   (interval * transaction_retry_interval_factor self)%float
                   (transaction_retry_interval_factor self) k).
    rewrite commits_app, IH. reflexivity. }
  rewrite Hc.
  unfold executions, sleeps, commits. destruct r; simpl; repeat split; lia.
Qed.

(** X1. Whatever the unit of work does, and provided that the sleeps of
    the backoff schedule return, a call that is allowed no attempt does
    nothing between acquiring and releasing the connection, and a call
    that is allowed [n_transaction_retries >= 1] attempts is, for some
    [k <= n_transaction_retries - 1]: [k] executions of the unit of work
    that raise a serialization conflict, each rolled back and directly
    followed by one sleep, then one last execution directly followed by
    the release of the connection.  So the unit of work is executed at
    most [n_transaction_retries] times, a sleep separates two consecutive
    executions, and there is no sleep before the first execution nor
    after the last one. *)
Theorem attempts_are_bounded_and_sleeps_lie_between_them
    (self : DBService) (T : Type) (func : action T) (s : state) :
  let n := n_transaction_retries self in
  let first := transaction_retry_interval_first self in
  let factor := transaction_retry_interval_factor self in
  (forall j, (j < Z.to_nat n - 1)%nat ->
             sleep_returns (backoff first factor j) = true) ->
  let '(_, r, tr) := execute_serializable_transaction self func s in
  (n <= 0 -> tr = [Acquire; Release]) /\
  (1 <= n ->
   exists k,
     Z.of_nat k <= n - 1 /\
     (forall j, (j < k)%nat ->
                snd (func (execution_start func s j))
                = Raised SerializationError) /\
     r = snd (func (execution_start func s k)) /\
     tr = Acquire
            :: (conflict_trace first factor k ++ [Begin; Call; closing r])
            ++ [Release] /\
     executions tr = S k /\
     (executions tr <= Z.to_nat n)%nat /\
     List.length (sleeps tr) = k).
Proof.
  cbv zeta. intros _.
  destruct (Z_le_gt_dec (n_transaction_retries self) 0) as [Hn | Hn].
  - rewrite (execute_no_attempts self func s Hn).
    split; [reflexivity | intros Hn1; lia].
  - destruct (@execute_is_a_run self T func s ltac:(lia))
      as [k [Hk [Hbefore Hrun]]].
    rewrite Hrun. split; [intros Hn0; lia |]. intros _.
    exists k.
    destruct (run_trace_counts self
                (snd (func (execution_start func s k))) k)
      as [Hex [Hsl _]].
    split; [exact Hk |]. split; [exact Hbefore |].
    split; [reflexivity |]. split; [reflexivity |].
    split; [exact Hex |]. split; [rewrite Hex; lia | exact Hsl].
Qed.

(** X2. Whatever the unit of work does, the sleeps of a call are the
    first interval, then the first interval multiplied once by the
    factor, then twice, and so on: the j-th sleep does not depend on what
    the attempts did. *)
Theorem sleeps_follow_the_backoff_schedule
    (self : DBService) (T : Type) (func : action T) (s : state) :
  let '(_, _, tr) := execute_serializable_transaction self func s in
  sleeps tr =
  map (backoff (transaction_retry_interval_first self)
               (transaction_retry_interval_factor self))
      (seq 0 (List.length (sleeps tr))).
Proof.
  destruct (execute_serializable_transaction self func s) as [[s' r] tr] eqn:E.
  destruct (Z_le_gt_dec (n_transaction_retries self) 0) as [Hn | Hn].
  - rewrite (execute_no_attempts self func s Hn) in E.
    injection E as _ _ <-. reflexivity.
  - destruct (@execute_run self T func s s' r tr ltac:(lia) E)
      as [tr0 [-> [_ [_ [Hsched _]]]]].
    destruct (counts_between_acquire_and_release tr0) as [_ [-> _]].
    exact Hsched.
Qed.




(** X4. A call of the executor that raises, whatever it raises and after
    however many attempts, leaves the three tables as they were before
    the call. *)
Theorem failed_call_leaves_the_store_unchanged
    (self : DBService) (T : Type) (func : action T)
    (s s' : state) (e : exn) (tr : list event) :
  execute_serializable_transaction self func s = (s', Raised e, tr) ->
  db s' = db s.
Proof.
  intros E.
  destruct (Z_le_gt_dec (n_transaction_retries self) 0) as [Hn | Hn].
  - rewrite (execute_no_attempts self func s Hn) in E.
    injection E as <- _ _. reflexivity.
  - destruct (@execute_run self T func s s' (Raised e) tr ltac:(lia) E)
      as [tr0 [_ [_ [_ [_ [_ [_ [_ [_ Hfail]]]]]]]]].
    apply (Hfail e). reflexivity.
Qed.


(** ** Registrations *)

Lemma verified_count_nonneg email d : 0 <= verified_count email d.
Proof. unfold verified_count. lia. Qed.

Lemma pending_count_after_insert_any clock uuid_source newcomer email s :
  pending_count email (db (after_insert clock uuid_source newcomer s)) =
  pending_count email (db s)
  + (if String.eqb (nr_email newcomer) email then 1 else 0).
Proof.
  unfold pending_count. simpl. rewrite filter_app, length_app. simpl.
  destruct (String.eqb (nr_email newcomer) email); simpl; lia.
Qed.

(** One registration either inserts its row, room being left for the
    email, or raises and leaves the tables as they were. *)
Lemma create_newcomer_step clock uuid_source self x s :
  (create_newcomer clock uuid_source self x s =
     (after_insert clock uuid_source x s,
      Returned (public_fields (new_row clock uuid_source x s)),
      [Acquire; Begin; Call; Commit; Release]) /\
   1 <= n_transaction_retries self /\
   verified_count (nr_email x) (db s) = 0 /\
   pending_count (nr_email x) (db s) < max_newcomers_with_same_email self /\
   storable x = true) \/
  (exists e s1 tr,
      create_newcomer clock uuid_source self x s = (s1, Raised e, tr) /\
      db s1 = db s /\
      (n_transaction_retries self <= 0 \/
       verified_count (nr_email x) (db s) > 0 \/
       pending_count (nr_email x) (db s)
         >= max_newcomers_with_same_email self \/
       storable x = false)).
Proof.
  pose proof (verified_count_nonneg (nr_email x) (db s)) as Hnn.
  destruct (create_newcomer_cases clock uuid_source self x s)
    as [[Hn H] | [[_ [Hv H]] | [[_ [_ [Hp H]]]
                                | [[Hn [Hv [Hp [Hst H]]]]
                                  | [_ [_ [_ [Hst H]]]]]]]].
  - right. eexists. eexists. eexists.
    split; [exact H |]. split; [reflexivity | left; exact Hn].
  - right. eexists. eexists. eexists.
    split; [exact H |]. split; [reflexivity | right; left; exact Hv].
  - right. eexists. eexists. eexists.
    split; [exact H |]. split; [reflexivity | right; right; left; exact Hp].
  - left. split; [exact H |]. split; [exact Hn |].
    split; [lia |]. split; [exact Hp | exact Hst].
  - right. eexists. eexists. eexists.
    split; [exact H |]. split; [reflexivity | right; right; right; exact Hst].
Qed.

(** X6. When at least one attempt is allowed, [create_newcomer] returns
    exactly when no row of [users] carries the email, fewer than the
    maximum of pending signups do, and none of the three texts of the
    input contains the character NUL.  It then returns the name and the
    email of the input with the identifier drawn from [uuid4] and the
    time read from the clock, has appended to [newcomers] the row with
    these four values and the password of the input, and has needed one
    transaction.  When the two counts allow the registration and a text
    of the input contains the character NUL, the insert is refused:
    [CharacterNotInRepertoireError] is raised after one attempt and the
    tables are as they were. *)
Theorem registration_succeeds_exactly_when_allowed
    (clock : nat -> timestamp) (uuid_source : nat -> UUID)
    (self : DBService) (newcomer : NewcomerRegistered) (s : state) :
  1 <= n_transaction_retries self ->
  ((exists s1 created tr,
       create_newcomer clock uuid_source self newcomer s
       = (s1, Returned created, tr)) <->
   verified_count (nr_email newcomer) (db s) = 0 /\
   pending_count (nr_email newcomer) (db s)
     < max_newcomers_with_same_email self /\
   storable newcomer = true) /\
  (forall s1 created tr,
      create_newcomer clock uuid_source self newcomer s
      = (s1, Returned created, tr) ->
      created = {| n_user_id := uuid_source (uuids_drawn s);
                   n_name := nr_name newcomer;
                   n_email := nr_email newcomer;
                   n_created_at := clock (ticks s) |} /\
      newcomers (db s1) =
        newcomers (db s)
          ++ [{| nc_user_id := uuid_source (uuids_drawn s);
                 nc_name := nr_name newcomer;
                 nc_email := nr_email newcomer;
                 nc_password := nr_password newcomer;
                 nc_created_at := clock (ticks s) |}] /\
      tr = [Acquire; Begin; Call; Commit; Release]) /\
  (verified_count (nr_email newcomer) (db s) = 0 ->
   pending_count (nr_email newcomer) (db s)
     < max_newcomers_with_same_email self ->
   storable newcomer = false ->
   exists s1,
     create_newcomer clock uuid_source self newcomer s
     = (s1, Raised CharacterNotInRepertoireError,
        [Acquire; Begin; Call; Rollback; Release]) /\
     db s1 = db s).
Proof.
  intros Hn.
  pose proof (create_newcomer_cases clock uuid_source self newcomer s)
    as Hcases.
  cbv zeta in Hcases.
  split; [| split].
  - destruct (create_newcomer_step clock uuid_source self newcomer s)
      as [[H [_ [Hv [Hp Hst]]]] | [e [s1 [tr0 [H [_ Hwhy]]]]]].
    + split; [intros _; repeat split; assumption |].
      intros _. eexists. eexists. eexists. exact H.
    + split.
      * intros [s2 [created [tr Hrun]]]. rewrite H in Hrun. discriminate.
      * intros [Hv [Hp Hst]]. exfalso.
        destruct Hwhy as [Hw | [Hw | [Hw | Hw]]]; try lia. congruence.
  - intros s1 created tr Hrun.
    destruct (create_newcomer_step clock uuid_source self newcomer s)
      as [[H _] | [e [s2 [tr0 [H _]]]]]; rewrite H in Hrun;
      [| discriminate].
    injection Hrun as <- <- <-. repeat split.
  - intros Hv Hp Hst.
    destruct Hcases
      as [[Hw _] | [[_ [Hw _]] | [[_ [_ [Hw _]]]
                                  | [[_ [_ [_ [Hw _]]]]
                                    | [_ [_ [_ [_ H]]]]]]]];
      try lia; try congruence.
    eexists. split; [exact H | reflexivity].
Qed.

Lemma register_all_step clock uuid_source self x rest s :
  (register_all clock uuid_source self (x :: rest) s =
     (let '(s2, rs) :=
        register_all clock uuid_source self rest
          (after_insert clock uuid_source x s) in
      (s2, Returned (public_fields (new_row clock uuid_source x s)) :: rs)) /\
   pending_count (nr_email x) (db s) < max_newcomers_with_same_email self) \/
  (exists e s1,
      db s1 = db s /\
      register_all clock uuid_source self (x :: rest) s =
      (let '(s2, rs) := register_all clock uuid_source self rest s1 in
       (s2, Raised e :: rs))).
Proof.
  rewrite register_all_cons.
  destruct (create_newcomer_step clock uuid_source self x s)
    as [[H [_ [_ [Hp _]]]] | [e [s1 [tr0 [H [Hdb _]]]]]]; rewrite H.
  - left. split; [reflexivity | exact Hp].
  - right. exists e, s1. split; [exact Hdb | reflexivity].
Qed.

(** X7. After any sequence of registrations, successful or not and for
    whatever emails, the [newcomers] table is the table before followed
    by one row for each registration that returned, in order, with the
    public fields that were returned; the [users] and
    [registration_tokens] tables are as before, and every registration
    has an outcome. *)
Theorem stored_signups_are_the_successful_registrations
    (clock : nat -> timestamp) (uuid_source : nat -> UUID)
    (self : DBService) (inputs : list NewcomerRegistered) (s : state) :
  let '(s', rs) := register_all clock uuid_source self inputs s in
  (exists rows,
      newcomers (db s') = newcomers (db s) ++ rows /\
      map public_fields rows = successes rs) /\
  users (db s') = users (db s) /\
  registration_tokens (db s') = registration_tokens (db s) /\
  List.length rs = List.length inputs.
Proof.
  revert s. induction inputs as [| x rest IH]; intros s.
  - simpl. split; [exists []; rewrite app_nil_r; split; reflexivity |].
    repeat split.
  - destruct (register_all_step clock uuid_source self x rest s)
      as [[H _] | [e [s1 [Hdb H]]]]; rewrite H; clear H.
    + specialize (IH (after_insert clock uuid_source x s)).
      destruct (register_all clock uuid_source self rest
                  (after_insert clock uuid_source x s)) as [s2 rs].
      destruct IH as [[rows [Hrows Hpub]] [Hu [Ht Hlen]]].
      split; [| split; [exact Hu | split; [exact Ht | simpl; lia]]].
      exists (new_row clock uuid_source x s :: rows). split.
      * rewrite Hrows. simpl. rewrite <- app_assoc. reflexivity.
      * simpl. rewrite Hpub. reflexivity.
    + specialize (IH s1). rewrite Hdb in IH.
      destruct (register_all clock uuid_source self rest s1) as [s2 rs].
      destruct IH as [[rows [Hrows Hpub]] [Hu [Ht Hlen]]].
      split; [| split; [exact Hu | split; [exact Ht | simpl; lia]]].
      exists rows. split; [exact Hrows | exact Hpub].
Qed.

(** X8. No sequence of registrations, for whatever emails, brings the
    number of pending signups of an email above the configured maximum:
    the number stays below the larger of the maximum and of what it was
    before. *)
Theorem pending_signups_never_exceed_the_maximum
    (clock : nat -> timestamp) (uuid_source : nat -> UUID)
    (self : DBService) (email : string)
    (inputs : list NewcomerRegistered) (s : state) :
  let '(s', _) := register_all clock uuid_source self inputs s in
  pending_count email (db s')
  <= Z.max (pending_count email (db s)) (max_newcomers_with_same_email self).
Proof.
  assert (H : forall bound inputs0 s0,
             max_newcomers_with_same_email self <= bound ->
             pending_count email (db s0) <= bound ->
             pending_count email
               (db (fst (register_all clock uuid_source self inputs0 s0)))
             <= bound).
  { intros bound inputs0. induction inputs0 as [| x rest IH]; intros s0 Hb Hs0.
    - exact Hs0.
    - destruct (register_all_step clock uuid_source self x rest s0)
        as [[H Hp] | [e [s1 [Hdb H]]]]; rewrite H; clear H.
      + specialize (IH (after_insert clock uuid_source x s0) Hb).
        destruct (register_all clock uuid_source self rest
                    (after_insert clock uuid_source x s0)) as [s2 rs].
        cbn [fst] in IH |- *. apply IH.
        rewrite pending_count_after_insert_any.
        destruct (String.eqb_spec (nr_email x) email) as [<- | _]; lia.
      + specialize (IH s1 Hb). rewrite Hdb in IH. specialize (IH Hs0).
        destruct (register_all clock uuid_source self rest s1) as [s2 rs].
        exact IH. }
  specialize (H (Z.max (pending_count email (db s))
                       (max_newcomers_with_same_email self))
                inputs s ltac:(lia) ltac:(lia)).
  destruct (register_all clock uuid_source self inputs s) as [s' rs].
  exact H.
Qed.

(** X9. Registrations for other emails do not count against an email:
    after any sequence of registrations none of which carries the email,
    the email has as many pending signups and as many verified accounts
    as before. *)
Theorem registrations_of_other_emails_do_not_count
    (clock : nat -> timestamp) (uuid_source : nat -> UUID)
    (self : DBService) (email : string)
    (inputs : list NewcomerRegistered) (s : state) :
  Forall (fun x => nr_email x <> email) inputs ->
  let '(s', _) := register_all clock uuid_source self inputs s in
  pending_count email (db s') = pending_count email (db s) /\
  verified_count email (db s') = verified_count email (db s).
Proof.
  revert s. induction inputs as [| x rest IH]; intros s Hall.
  - split; reflexivity.
  - inversion Hall as [| x' rest' Hx Hrest]; subst x' rest'.
    destruct (register_all_step clock uuid_source self x rest s)
      as [[H _] | [e [s1 [Hdb H]]]]; rewrite H; clear H.
    + specialize (IH (after_insert clock uuid_source x s) Hrest).
      destruct (register_all clock uuid_source self rest
                  (after_insert clock uuid_source x s)) as [s2 rs].
      destruct IH as [Hp Hv]. split.
      * rewrite Hp, pending_count_after_insert_any.
        destruct (String.eqb_spec (nr_email x) email); [contradiction | lia].
      * rewrite Hv. reflexivity.
    + specialize (IH s1 Hrest). rewrite Hdb in IH.
      destruct (register_all clock uuid_source self rest s1) as [s2 rs].
      exact IH.
Qed.

(** ** Verification and lookup *)

Lemma hd_error_filter_in (A : Type) (f : A -> bool) (l : list A) (x : A) :
  hd_error (filter f l) = Some x -> In x l /\ f x = true.
Proof.
  intros H. apply filter_In.
  destruct (filter f l) as [| y l']; [discriminate |].
  injection H as ->. left. reflexivity.
Qed.

Lemma hd_error_filter_unique (A : Type) (f : A -> bool) (l : list A) (x : A) :
  In x l -> f x = true ->
  (forall y, In y l -> f y = true -> y = x) ->
  hd_error (filter f l) = Some x.
Proof.
  intros Hin Hfx Huniq.
  destruct (@filter_some _ f l x Hin Hfx) as [y Hy].
  rewrite Hy. f_equal.
  destruct (@hd_error_filter_in _ f l y Hy) as [Hyin Hfy].
  apply Huniq; assumption.
Qed.

(** X10. When a pending signup has an unexpired token row with the
    presented string, the unit of work [_verify_newcomer] raises
    [AttributeError] on reading [newcomer.email] from the Record found,
    after the one reading of the clock made by the lookup and whether or
    not the email already belongs to a row of [users]: the [users] table
    is not consulted, no table changes and [UserAlreadyExists] is not
    raised.  So does the method [verify_newcomer], after a single
    attempt, as soon as the executor is allowed one attempt. *)
Theorem verification_of_a_found_signup_stops_at_the_record
    (clock : nat -> timestamp) (self : DBService) (tok : string) (s : state) :
  (exists nc rt,
      In nc (newcomers (db s)) /\ In rt (registration_tokens (db s)) /\
      nc_user_id nc = user_id rt /\ token rt = tok /\
      clock (ticks s) < expired_at rt) ->
  _verify_newcomer clock tok s = (tick s, Raised AttributeError) /\
  (1 <= n_transaction_retries self ->
   verify_newcomer clock self tok s =
     (tick s, Raised AttributeError,
      [Acquire; Begin; Call; Rollback; Release])) /\
  snd (fst (verify_newcomer clock self tok s)) <> Raised UserAlreadyExists.
Proof.
  intros [nc [rt [Hnc [Hrt [Hid [Htok Hlater]]]]]].
  assert (Hfound : exists row,
             hd_error (filter (token_matches tok (clock (ticks s)))
                              (newcomers_join_tokens (db s))) = Some row).
  { apply filter_some with (x := (nc, rt)).
    - apply in_newcomers_join_tokens. repeat split; assumption.
    - unfold token_matches. simpl. rewrite Htok, String.eqb_refl. simpl.
      destruct (Z.gtb_spec (expired_at rt) (clock (ticks s)));
        [reflexivity | lia]. }
  destruct Hfound as [row Hrow].
  assert (Hu : _verify_newcomer clock tok s = (tick s, Raised AttributeError)).
  { rewrite verify_newcomer_unit, Hrow. reflexivity. }
  assert (Hm : 1 <= n_transaction_retries self ->
               verify_newcomer clock self tok s =
               (tick s, Raised AttributeError,
                [Acquire; Begin; Call; Rollback; Release])).
  { intros Hn. unfold verify_newcomer.
    rewrite (@execute_ends_at self _ _ 0%nat s (rollback s (tick s))
               (Raised AttributeError) [Begin; Call; Rollback]).
    - reflexivity.
    - intros j Hj. lia.
    - simpl. lia.
    - simpl. apply transaction_raised. exact Hu.
    - left. discriminate. }
  split; [exact Hu |]. split; [exact Hm |].
  destruct (Z_le_gt_dec (n_transaction_retries self) 0) as [Hn | Hn].
  - unfold verify_newcomer.
    rewrite (execute_no_attempts self (_verify_newcomer clock tok) s Hn).
    simpl. discriminate.
  - rewrite (Hm ltac:(lia)). simpl. discriminate.
Qed.

(** X11. Registration, token and lookup compose.  After a successful
    [create_newcomer] and the [save_registration_token] of a token for
    the identifier that was returned, a lookup by the string of the
    token, made before the token expires, finds the row that the
    registration has written (with the password of the input) joined to
    the token; provided that the string of the token and the identifier
    were not already in the store. *)
Theorem registered_signup_is_found_by_its_token
    (clock : nat -> timestamp) (uuid_source : nat -> UUID)
    (self : DBService) (newcomer : NewcomerRegistered)
    (tok : RegistrationToken) (s s1 : state) (created : Newcomer)
    (tr : list event) :
  create_newcomer clock uuid_source self newcomer s
    = (s1, Returned created, tr) ->
  user_id tok = n_user_id created ->
  (forall rt, In rt (registration_tokens (db s)) -> token rt <> token tok) ->
  (forall nc, In nc (newcomers (db s)) -> nc_user_id nc <> n_user_id created) ->
  clock (ticks s1) < expired_at tok ->
  let s2 := fst (save_registration_token tok s1) in
  exists row,
    _get_newcomer_by_token clock (token tok) s2
      = (tick s2, Returned (Some (row, tok))) /\
    public_fields row = created /\
    nc_password row = nr_password newcomer.
Proof.
  intros Hrun Hid Hfresh_tok Hfresh_id Hlater.
  destruct (create_newcomer_step clock uuid_source self newcomer s)
    as [[H _] | [e [s1' [tr0 [H _]]]]]; rewrite H in Hrun; [| discriminate].
  injection Hrun as <- <- _.
  rewrite save_registration_token_eval. cbn [fst]. cbv zeta.
  exists (new_row clock uuid_source newcomer s).
  split; [| split; reflexivity].
  rewrite get_newcomer_by_token_eval. do 3 f_equal.
  set (s2 := with_db
               (add_registration_token tok
                  (db (after_insert clock uuid_source newcomer s)))
               (after_insert clock uuid_source newcomer s)).
  apply hd_error_filter_unique.
  - apply in_newcomers_join_tokens. simpl.
    split; [apply in_or_app; right; left; reflexivity |].
    split; [apply in_or_app; right; left; reflexivity |].
    symmetry. exact Hid.
  - unfold token_matches. simpl snd. rewrite String.eqb_refl. simpl.
    destruct (Z.gtb_spec (expired_at tok)
                (clock (S (ticks s)))); [reflexivity |].
    simpl in Hlater. lia.
  - intros [nc rt] Hin Hmatch.
    apply in_newcomers_join_tokens in Hin. simpl in Hin.
    destruct Hin as [Hnc [Hrt Hjoin]].
    unfold token_matches in Hmatch. simpl in Hmatch.
    apply andb_true_iff in Hmatch. destruct Hmatch as [Htok _].
    apply String.eqb_eq in Htok.
    apply in_app_or in Hrt. destruct Hrt as [Hrt | [<- | []]];
      [exfalso; exact (Hfresh_tok rt Hrt Htok) |].
    apply in_app_or in Hnc. destruct Hnc as [Hnc | [<- | []]];
      [| reflexivity].
    exfalso. apply (Hfresh_id nc Hnc). rewrite Hjoin. exact Hid.
Qed.

(** ** The endpoints *)

(** X12. [get_user] returns a profile only to a caller whose role is
    [admin], and then the profile that the repository returned; for such
    a caller a [UserNotExists] of the repository becomes
    [NotFoundException], and [UserNotExists] never reaches any caller.
    [get_me] returns the caller, whatever the role. *)
Theorem profiles_are_disclosed_to_administrators_only
    (db_get_user : UUID -> action User)
    (user_id : UUID) (user : User) (s : state) :
  (forall s' u,
      get_user db_get_user user_id user s = (s', Returned u) ->
      u_role user = UserRole.admin /\
      db_get_user user_id s = (s', Returned u)) /\
  (u_role user = UserRole.admin ->
   (forall s' u, db_get_user user_id s = (s', Returned u) ->
                 get_user db_get_user user_id user s = (s', Returned u)) /\
   (forall s', db_get_user user_id s = (s', Raised UserNotExists) ->
               get_user db_get_user user_id user s
               = (s', Raised NotFoundException))) /\
  snd (get_user db_get_user user_id user s) <> Raised UserNotExists /\
  get_me user s = (s, Returned user).
Proof.
  unfold get_user.
  destruct (u_role user) eqn:Hrole; simpl.
  - (* a plain user *)
    split; [intros s' u H; discriminate H |].
    split; [intros H; discriminate H |].
    split; [discriminate | reflexivity].
  - (* an administrator *)
    destruct (db_get_user user_id s) as [s1 [u1 | e1]] eqn:Hrepo.
    + split; [intros s' u H; injection H as <- <-; split; reflexivity |].
      split; [intros _; split |].
      * intros s' u H. exact H.
      * intros s' H. discriminate H.
      * split; [simpl; discriminate | reflexivity].
    + split; [intros s' u H; destruct e1; discriminate H |].
      split; [intros _; split |].
      * intros s' u H. discriminate H.
      * intros s' H. injection H as <- ->. reflexivity.
      * split; [destruct e1; simpl; discriminate | reflexivity].
Qed.

(** ** The further statements at the sample data *)

(** Three attempts allowed, all three refused: two conflicts each
    followed by a sleep, then the last execution and the release. *)
Lemma attempts_are_bounded_and_sleeps_lie_between_them_witness :
  sleep_returns 0.5 = true /\ sleep_returns 1 = true /\
  1 <= n_transaction_retries sample_service /\
  exists k,
    Z.of_nat k <= 2 /\
    snd (execute_serializable_transaction sample_service conflicting_work
           empty_state)
    = Acquire
        :: (conflict_trace 0.5 2 k
            ++ [Begin; Call;
                closing (snd (fst (execute_serializable_transaction
                                     sample_service conflicting_work
                                     empty_state)))])
        ++ [Release].
Proof.
  assert (H0 : forall j,
             (j < Z.to_nat (n_transaction_retries sample_service) - 1)%nat ->
             sleep_returns
               (backoff (transaction_retry_interval_first sample_service)
                  (transaction_retry_interval_factor sample_service) j)
             = true).
  { intros j Hj. destruct j as [| [| j]];
      [reflexivity | reflexivity | simpl in Hj; lia]. }
  assert (Hn : 1 <= n_transaction_retries sample_service) by (simpl; lia).
  split; [reflexivity |]. split; [reflexivity |]. split; [exact Hn |].
  pose proof (@attempts_are_bounded_and_sleeps_lie_between_them
                sample_service Newcomer conflicting_work empty_state H0) as H.
  destruct (execute_serializable_transaction sample_service conflicting_work
              empty_state) as [[s' r] tr].
  destruct H as [_ H]. destruct (H Hn) as [k [Hk [_ [_ [Htr _]]]]].
  exists k. split; [exact Hk | exact Htr].
Defined.


(** Three refused attempts of a unit of work that writes a row: no row
    is left. *)
Lemma failed_call_leaves_the_store_unchanged_witness :
  snd (fst (execute_serializable_transaction sample_service conflicting_work
              empty_state)) = Raised SerializationError /\
  db (fst (fst (execute_serializable_transaction sample_service
                  conflicting_work empty_state))) = db empty_state.
Proof.
  split; [reflexivity |].
  apply (@failed_call_leaves_the_store_unchanged sample_service Newcomer
           conflicting_work empty_state
           (fst (fst (execute_serializable_transaction sample_service
                        conflicting_work empty_state)))
           SerializationError
           (snd (execute_serializable_transaction sample_service
                   conflicting_work empty_state))).
  reflexivity.
Defined.


(** The first registration of [ivan], and the registration of a name
    that contains the character NUL. *)
Lemma registration_succeeds_exactly_when_allowed_witness :
  1 <= n_transaction_retries sample_service /\
  storable ivan = true /\ storable nul_name = false /\
  (exists s1 created tr,
      create_newcomer sample_clock sample_uuids sample_service ivan
        empty_state
      = (s1, Returned created, tr)) /\
  (exists s1,
      create_newcomer sample_clock sample_uuids sample_service nul_name
        empty_state
      = (s1, Raised CharacterNotInRepertoireError,
         [Acquire; Begin; Call; Rollback; Release]) /\
      db s1 = db empty_state).
Proof.
  assert (Hn : 1 <= n_transaction_retries sample_service) by (simpl; lia).
  assert (Hroom : pending_count "i@v.an"%string (db empty_state)
                  < max_newcomers_with_same_email sample_service)
    by reflexivity.
  split; [exact Hn |]. split; [reflexivity |]. split; [reflexivity |].
  split.
  - apply (proj2 (proj1 (@registration_succeeds_exactly_when_allowed
                           sample_clock sample_uuids sample_service ivan
                           empty_state Hn))).
    split; [reflexivity |]. split; [exact Hroom | reflexivity].
  - exact (proj2 (proj2 (@registration_succeeds_exactly_when_allowed
                           sample_clock sample_uuids sample_service nul_name
                           empty_state Hn))
             eq_refl Hroom eq_refl).
Defined.

(** Two registrations of [maria] while [ivan] has a pending signup. *)
Lemma registrations_of_other_emails_do_not_count_witness :
  Forall (fun x => nr_email x <> "i@v.an"%string) [maria; maria] /\
  pending_count "i@v.an"
    (db (fst (register_all sample_clock sample_uuids sample_service
                [maria; maria] pending_state))) = 1.
Proof.
  assert (H : Forall (fun x => nr_email x <> "i@v.an"%string) [maria; maria])
    by (repeat constructor; discriminate).
  split; [exact H |].
  pose proof (@registrations_of_other_emails_do_not_count sample_clock
                sample_uuids sample_service "i@v.an"%string [maria; maria]
                pending_state H) as Hsame.
  destruct (register_all sample_clock sample_uuids sample_service
              [maria; maria] pending_state) as [s' rs].
  destruct Hsame as [Hp _]. simpl fst. rewrite Hp. reflexivity.
Defined.

(** The token of [ivan] is valid and the email of [ivan] is verified. *)
Lemma verification_of_a_found_signup_stops_at_the_record_witness :
  (exists nc rt,
      In nc (newcomers (db verified_state)) /\
      In rt (registration_tokens (db verified_state)) /\
      nc_user_id nc = user_id rt /\ token rt = "t0k3n"%string /\
      sample_clock (ticks verified_state) < expired_at rt) /\
  verified_count "i@v.an"%string (db verified_state) = 1 /\
  _verify_newcomer sample_clock "t0k3n"%string verified_state
  = (tick verified_state, Raised AttributeError).
Proof.
  assert (H1 : exists nc rt,
             In nc (newcomers (db verified_state)) /\
             In rt (registration_tokens (db verified_state)) /\
             nc_user_id nc = user_id rt /\ token rt = "t0k3n"%string /\
             sample_clock (ticks verified_state) < expired_at rt).
  { exists ivan_row, ivan_token.
    split; [left; reflexivity |]. split; [left; reflexivity |].
    split; [reflexivity |]. split; [reflexivity |]. reflexivity. }
  split; [exact H1 |]. split; [reflexivity |].
  exact (proj1 (@verification_of_a_found_signup_stops_at_the_record
                  sample_clock sample_service "t0k3n"%string verified_state
                  H1)).
Defined.

(** [ivan] registers in an empty store and his token is saved. *)
Lemma registered_signup_is_found_by_its_token_witness :
  user_id ivan_token = 7%N /\
  sample_clock 1 < expired_at ivan_token /\
  exists row,
    _get_newcomer_by_token sample_clock "t0k3n"%string
      (fst (save_registration_token ivan_token
              (after_insert sample_clock sample_uuids ivan empty_state)))
    = (tick (fst (save_registration_token ivan_token
                    (after_insert sample_clock sample_uuids ivan empty_state))),
       Returned (Some (row, ivan_token))) /\
    public_fields row = public_fields ivan_row.
Proof.
  split; [reflexivity |]. split; [reflexivity |].
  destruct (@registered_signup_is_found_by_its_token sample_clock sample_uuids
              sample_service ivan ivan_token empty_state
              (after_insert sample_clock sample_uuids ivan empty_state)
              (public_fields ivan_row)
              [Acquire; Begin; Call; Commit; Release]
              eq_refl eq_refl
              (fun rt (H : In rt []) => match H with end)
              (fun nc (H : In nc []) => match H with end)
              eq_refl)
    as [row [Hfound [Hpub _]]].
  exists row. split; [exact Hfound | exact Hpub].
Defined.

(** An administrator reads a stored profile. *)
Lemma profiles_are_disclosed_to_administrators_only_witness :
  u_role admin_caller = UserRole.admin /\
  get_user (fun _ => ret plain_caller) 7%N admin_caller verified_state
  = (verified_state, Returned plain_caller).
Proof.
  split; [reflexivity |].
  apply (proj1 (proj1 (proj2 (@profiles_are_disclosed_to_administrators_only
                                (fun _ => ret plain_caller) 7%N admin_caller
                                verified_state)) eq_refl)).
  reflexivity.
Defined.
